(** * Weekly-plan engine of the field-sales CRM

    A shallow embedding of the plan editor ([components/PlanEditor.tsx]),
    the representative dashboard ([RepDashboard]), the manager dashboard
    ([components/ManagerDashboard.tsx]) and the weekly-plan part of
    [services/api.ts], with the properties the specification states
    about them.

    Conventions.
    - A JavaScript number holding an identifier or a day index is a [Z].
    - A JavaScript object used as a dictionary is a [gmap]; a key that is
      absent reads as [None] (JavaScript [undefined]).  The count table of
      the visit frequency is keyed by free text, so there the members that
      a plain object inherits are modelled too.
    - [parseInt], the [Date] constructor on strings and the translation
      function [t] are supplied by the host; they are section variables,
      so every result holds whatever they compute.
    - A [Date] is its time value in milliseconds, read on the host's
      local clock; the clock is taken at a fixed offset from UTC.
    - [setTimeout] callbacks only clear a displayed message and are left
      out. *)

From Stdlib Require Import ZArith Lia Ascii String.
From stdpp Require Import base gmap sets list strings pretty.

Local Open Scope Z_scope.

(** ** Data model ([types.ts]) *)

Inductive UserRole := Manager | Supervisor | Rep.

Record User := {
  user_id : string;
  user_name : string;
  username : string;
  role : UserRole
}.

Record Doctor := {
  doctor_id : Z;
  doctor_name : string;
  doctor_regionId : Z;
  doctor_repId : string;
  doctor_specialization : string
}.

(** [DayPlanDetails]: the region of a day and the doctors planned for it. *)
Record DayPlanDetails := {
  regionId : Z;
  doctorIds : list Z
}.

Inductive PlanStatus := draft | pending | approved | rejected.

Inductive VisitType := DOCTOR_VISIT | PHARMACY_VISIT.

Record VisitReport := {
  report_id : string;
  type : VisitType;
  repName : string;
  regionName : string;
  targetName : string;
  targetSpecialization : option string;
  productName : option string;
  visitType : option string;
  notes : string;
  date : string
}.

(** [WeeklyPlan['plan']] is [{ [dayIndex: number]: DayPlanDetails | null }]:
    a lookup gives [None] for a missing key, [Some None] for the explicit
    [null] marker and [Some (Some details)] for an assignment. *)
Abbreviation PlanData := (gmap Z (option DayPlanDetails)).

Record WeeklyPlan := {
  plan : PlanData;
  status : PlanStatus
}.

#[global] Instance UserRole_eq_dec : EqDecision UserRole.
Proof. solve_decision. Defined.

#[global] Instance PlanStatus_eq_dec : EqDecision PlanStatus.
Proof. solve_decision. Defined.

#[global] Instance VisitType_eq_dec : EqDecision VisitType.
Proof. solve_decision. Defined.

#[global] Instance DayPlanDetails_eq_dec : EqDecision DayPlanDetails.
Proof. solve_decision. Defined.

(** ** The plan editor ([components/PlanEditor.tsx]) *)

Section PlanEditor.

(** JavaScript [parseInt]; [None] stands for [NaN]. *)
Variable parseInt : string -> option Z.

(** The doctors fetched by [api.getAllDoctors]. *)
Variable allDoctors : list Doctor.

(** [WORK_WEEK_DAYS]: the indices of the work week, Saturday first. *)
Definition WORK_WEEK_DAYS : list Z := [6; 0; 1; 2; 3; 4; 5].

(** [assignedDoctorIds]: every doctor id listed under any day of the plan. *)
Definition assignedDoctorIds (planData : PlanData) : gset Z :=
  map_fold
    (fun (_ : Z) (dayPlan : option DayPlanDetails) (assigned : gset Z) =>
       match dayPlan with
       | Some details => list_to_set (doctorIds details) ∪ assigned
       | None => assigned
       end)
    ∅ planData.

(** [handleRegionChange]: the state update passed to [setPlanData]. *)
Definition handleRegionChange (dayIndex : Z) (regionIdStr : string)
    (prevPlan : PlanData) : PlanData :=
  let newPlan := prevPlan in
  if bool_decide (regionIdStr = "none") then <[dayIndex := None]> newPlan
  else
    match parseInt regionIdStr with
    | None => <[dayIndex := None]> newPlan
    | Some newRegionId =>
        let existingDayPlanEntry := newPlan !! dayIndex in
        let keptDoctorIds :=
          match existingDayPlanEntry with
          | Some (Some entry) =>
              if regionId entry =? newRegionId then doctorIds entry else []
          | _ => []
          end in
        <[dayIndex := Some {| regionId := newRegionId;
                              doctorIds := keptDoctorIds |}]> newPlan
    end.

(** [handleAddDoctor].  [assigned] is the memoised [assignedDoctorIds] the
    handler closes over; [prevPlan] is the state the update function
    receives. *)
Definition handleAddDoctor (assigned : gset Z) (dayIndex : Z)
    (doctorIdStr : string) (prevPlan : PlanData) : PlanData :=
  match parseInt doctorIdStr with
  | None => prevPlan
  | Some doctorId =>
      if bool_decide (doctorId ∈ assigned) then prevPlan
      else
        let newPlan := prevPlan in
        match newPlan !! dayIndex with
        | Some (Some currentDayPlanEntry) =>
            let currentDoctorIds := doctorIds currentDayPlanEntry in
            if bool_decide (doctorId ∈ currentDoctorIds) then newPlan
            else
              <[dayIndex := Some {| regionId := regionId currentDayPlanEntry;
                                    doctorIds := currentDoctorIds ++ [doctorId] |}]>
                newPlan
        | _ =>
            match find (fun d => doctor_id d =? doctorId) allDoctors with
            | Some doctor =>
                <[dayIndex := Some {| regionId := doctor_regionId doctor;
                                      doctorIds := [doctorId] |}]> newPlan
            | None => newPlan
            end
        end
  end.

(** [handleRemoveDoctor]. *)
Definition handleRemoveDoctor (dayIndex : Z) (doctorId : Z)
    (prevPlan : PlanData) : PlanData :=
  let newPlan := prevPlan in
  match newPlan !! dayIndex with
  | Some (Some currentDayPlanEntry) =>
      <[dayIndex := Some {| regionId := regionId currentDayPlanEntry;
                            doctorIds :=
                              filter (fun i => i ≠ doctorId)
                                     (doctorIds currentDayPlanEntry) |}]> newPlan
  | _ => newPlan
  end.

(** The plan the editor sends on save: one entry per work-week day. *)
Definition cleanedPlan (planData : PlanData) : PlanData :=
  foldl
    (fun (cleaned : PlanData) (dayIndex : Z) =>
       match planData !! dayIndex with
       | Some (Some dayPlan) => <[dayIndex := Some dayPlan]> cleaned
       | _ => <[dayIndex := None]> cleaned
       end)
    ∅ WORK_WEEK_DAYS.

(** [availableDoctorsInRegion]: the options of a day's add-doctor selector
    (the selector is rendered only for a day whose region id is truthy). *)
Definition availableDoctorsInRegion (planData : PlanData) (dayIndex : Z)
    : list Doctor :=
  match planData !! dayIndex with
  | Some (Some dayPlan) =>
      filter (fun doc => doctor_regionId doc = regionId dayPlan
                         ∧ doctor_id doc ∉ assignedDoctorIds planData)
             allDoctors
  | _ => []
  end.

(** *** Editing sessions *)

(** One user action in the editor.  Each action is handled on a rendered
    component, so [handleAddDoctor] sees the [assignedDoctorIds] of the
    plan it updates. *)
Inductive Mutation :=
| RegionChange (dayIndex : Z) (regionIdStr : string)
| AddDoctor (dayIndex : Z) (doctorIdStr : string)
| RemoveDoctor (dayIndex : Z) (doctorId : Z).

Definition applyMutation (planData : PlanData) (m : Mutation) : PlanData :=
  match m with
  | RegionChange dayIndex regionIdStr =>
      handleRegionChange dayIndex regionIdStr planData
  | AddDoctor dayIndex doctorIdStr =>
      handleAddDoctor (assignedDoctorIds planData) dayIndex doctorIdStr planData
  | RemoveDoctor dayIndex doctorId =>
      handleRemoveDoctor dayIndex doctorId planData
  end.

Definition applyMutations (planData : PlanData) (ms : list Mutation) : PlanData :=
  foldl applyMutation planData ms.

(** *** The two plan invariants *)

(** [dayPlan?.doctorIds || []]. *)
Definition doctorsForDay (dayPlan : option DayPlanDetails) : list Z :=
  from_option doctorIds [] dayPlan.

Definition daysShareNoDoctor (i j : Z) (a b : option DayPlanDetails) : Prop :=
  i = j ∨ Forall (fun x => x ∉ doctorsForDay b) (doctorsForDay a).

(** No doctor id is listed under two different days. *)
Definition noDoctorOnTwoDays (planData : PlanData) : Prop :=
  map_Forall
    (fun i a => map_Forall (fun j b => daysShareNoDoctor i j a b) planData)
    planData.

(** Some fetched doctor has this id and this region
    ([client.regionId === day.regionId]). *)
Definition belongsToRegion (doctorId region : Z) : Prop :=
  Exists (fun doc => doctor_id doc = doctorId ∧ doctor_regionId doc = region) allDoctors.

Definition dayInRegion (dayPlan : option DayPlanDetails) : Prop :=
  match dayPlan with
  | Some details =>
      Forall (fun x => belongsToRegion x (regionId details)) (doctorIds details)
  | None => True
  end.

(** Every doctor listed under a day belongs to that day's region. *)
Definition doctorsInDayRegion (planData : PlanData) : Prop :=
  map_Forall (fun (_ : Z) dayPlan => dayInRegion dayPlan) planData.

(** An [AddDoctor] on a day that already has an assignment names a doctor
    of that day's region, as every option of the day's selector does. *)
Definition addRespectsRegion (planData : PlanData) (m : Mutation) : Prop :=
  match m with
  | AddDoctor dayIndex doctorIdStr =>
      match parseInt doctorIdStr, planData !! dayIndex with
      | Some doctorId, Some (Some dayPlan) =>
          belongsToRegion doctorId (regionId dayPlan)
      | _, _ => True
      end
  | _ => True
  end.

Fixpoint addsRespectRegion (planData : PlanData) (ms : list Mutation) : Prop :=
  match ms with
  | [] => True
  | m :: rest =>
      addRespectsRegion planData m
      ∧ addsRespectRegion (applyMutation planData m) rest
  end.

#[global] Instance daysShareNoDoctor_dec i j a b :
  Decision (daysShareNoDoctor i j a b).
Proof. unfold daysShareNoDoctor. apply _. Defined.

#[global] Instance noDoctorOnTwoDays_dec planData :
  Decision (noDoctorOnTwoDays planData).
Proof. unfold noDoctorOnTwoDays. apply _. Defined.

#[global] Instance belongsToRegion_dec x r : Decision (belongsToRegion x r).
Proof. unfold belongsToRegion. apply _. Defined.

#[global] Instance dayInRegion_dec dayPlan : Decision (dayInRegion dayPlan).
Proof. destruct dayPlan; simpl; apply _. Defined.

#[global] Instance doctorsInDayRegion_dec planData :
  Decision (doctorsInDayRegion planData).
Proof. unfold doctorsInDayRegion. apply _. Defined.

#[global] Instance addRespectsRegion_dec planData m :
  Decision (addRespectsRegion planData m).
Proof.
  destruct m as [? ?|dayIndex doctorIdStr|? ?]; simpl; try apply _.
  destruct (parseInt doctorIdStr); [|apply _].
  destruct (planData !! dayIndex) as [[?|]|]; apply _.
Defined.

#[global] Instance addsRespectRegion_dec planData ms :
  Decision (addsRespectRegion planData ms).
Proof. revert planData. induction ms; intros; simpl; apply _. Defined.

End PlanEditor.

(** The decimal fragment of [parseInt]: an optional sign, then the longest
    run of decimal digits; [NaN] when there is no digit. *)
Definition digitValue (c : ascii) : option Z :=
  let n := Z.of_nat (nat_of_ascii c) in
  if (48 <=? n) && (n <=? 57) then Some (n - 48) else None.

Fixpoint parseDigits (acc : option Z) (s : string) : option Z :=
  match s with
  | EmptyString => acc
  | String c rest =>
      match digitValue c with
      | Some d => parseDigits (Some (from_option (Z.mul 10) 0 acc + d)) rest
      | None => acc
      end
  end.

Definition parseIntDecimal (s : string) : option Z :=
  match s with
  | String "-" rest => Z.opp <$> parseDigits None rest
  | String "+" rest => parseDigits None rest
  | _ => parseDigits None s
  end.


(** ** Dates *)

Abbreviation Date := Z (only parsing).

Definition msPerDay : Z := 86400000.

(** Whole days between 1 January 1970 and the local day of [d]. *)
Definition localDay (d : Date) : Z := d / msPerDay.

(** [d.getDay()]: 0 is Sunday, 6 is Saturday; 1 January 1970 was a
    Thursday. *)
Definition getDay (d : Date) : Z := (localDay d + 4) mod 7.

(** [d.setDate(d.getDate() + n)]: the same time of day, [n] days later. *)
Definition addDays (d : Date) (n : Z) : Date := d + n * msPerDay.

(** The proleptic Gregorian calendar, counted from 1 March of year 0 in
    cycles of 400 years (146097 days).  Within a cycle: the year a day
    falls in, the first day of a year, the month (0 is March) a day of the
    year falls in, and the first day of a month. *)
Definition yearOfCycleOf (dayOfCycle : Z) : Z :=
  (dayOfCycle - dayOfCycle / 1460 + dayOfCycle / 36524
   - dayOfCycle / 146096) / 365.

Definition yearStart (yearOfCycle : Z) : Z :=
  365 * yearOfCycle + yearOfCycle / 4 - yearOfCycle / 100.

Definition marchMonthOf (dayOfYear : Z) : Z := (5 * dayOfYear + 2) / 153.

Definition monthStart (marchMonth : Z) : Z := (153 * marchMonth + 2) / 5.

(** Year, month (1 to 12) and day of the month of a day number. *)
Definition civilFromDays (dayNumber : Z) : Z * Z * Z :=
  let shifted := dayNumber + 719468 in
  let cycle := shifted / 146097 in
  let dayOfCycle := shifted mod 146097 in
  let yearOfCycle := yearOfCycleOf dayOfCycle in
  let dayOfYear := dayOfCycle - yearStart yearOfCycle in
  let marchMonth := marchMonthOf dayOfYear in
  let dayOfMonth := dayOfYear - monthStart marchMonth + 1 in
  let month := if marchMonth <? 10 then marchMonth + 3 else marchMonth - 9 in
  let year := yearOfCycle + cycle * 400 + (if month <=? 2 then 1 else 0) in
  (year, month, dayOfMonth).

(** The day number of a calendar date, month from 1 to 12. *)
Definition daysFromCivil (year month dayOfMonth : Z) : Z :=
  let marchYear := if month <=? 2 then year - 1 else year in
  let cycle := marchYear / 400 in
  let yearOfCycle := marchYear mod 400 in
  let marchMonth := if month <=? 2 then month + 9 else month - 3 in
  let dayOfYear := monthStart marchMonth + dayOfMonth - 1 in
  cycle * 146097 + yearStart yearOfCycle + dayOfYear - 719468.

Definition getFullYear (d : Date) : Z := (civilFromDays (localDay d)).1.1.

(** [d.getMonth()]: 0 is January. *)
Definition getMonth (d : Date) : Z := (civilFromDays (localDay d)).1.2 - 1.

Definition getDate (d : Date) : Z := (civilFromDays (localDay d)).2.

(** [new Date(year, monthIndex, day)]: local midnight of that date.  A year
    from 0 to 99 stands for the year 1900 later. *)
Definition newDateYMD (year monthIndex dayOfMonth : Z) : Date :=
  let fullYear :=
    if (0 <=? year) && (year <=? 99) then 1900 + year else year in
  daysFromCivil fullYear (monthIndex + 1) dayOfMonth * msPerDay.

(** [new Date(today.getFullYear(), today.getMonth(), 1)]. *)
Definition startOfMonth (today : Date) : Date :=
  newDateYMD (getFullYear today) (getMonth today) 1.

(** ** The representative dashboard ([RepDashboard]) *)

(** Planning time is Thursday (4) and Friday (5). *)
Definition isPlanningTime (today : Date) : bool :=
  let dayOfWeek := getDay today in
  (dayOfWeek =? 4) || (dayOfWeek =? 5).

(** [planStartDate]: the memoised value, computed from the flag of the
    current render and from the clock [d] read inside the memo. *)
Definition planStartDate (isPlanningTime : bool) (d : Date) : Date :=
  let currentDay := getDay d in
  if isPlanningTime then
    let daysUntilNextSaturday := Z.rem (6 - currentDay + 7) 7 in
    addDays d (if daysUntilNextSaturday =? 0 then 7
               else daysUntilNextSaturday)
  else
    let daysSinceSaturday := Z.rem (currentDay + 1) 7 in
    addDays d (- daysSinceSaturday).

Inductive View := view_dashboard | view_search | view_weekly | view_plan.

Definition canEdit (currentPlan : option WeeklyPlan) (isPlanningTime : bool)
    : bool :=
  match currentPlan with
  | None => true
  | Some p => bool_decide (status p ≠ approved)
  end || isPlanningTime.

(** [handleWeeklyPlanClick]: the view the weekly-plan action opens. *)
Definition handleWeeklyPlanClick (currentPlan : option WeeklyPlan)
    (isPlanningTime : bool) : View :=
  if canEdit currentPlan isPlanningTime then view_plan else view_weekly.

(** *** Monthly visit frequency *)

Record Frequency := {
  freq1 : Z;
  freq2 : Z;
  freq3 : Z
}.

Section VisitFrequency.

(** [new Date(s)] for a string; [None] stands for an invalid date, which
    compares false with every date. *)
Variable newDate : string -> option Date.

(** The condition under which a visit is counted. *)
Definition countedThisMonth (today : Date) (visit : VisitReport) : bool :=
  match newDate (date visit) with
  | Some visitDate =>
      (startOfMonth today <=? visitDate) && (visitDate <=? today)
      && bool_decide (type visit = DOCTOR_VISIT)
  | None => false
  end.

(** [visitCounts] is a plain object, so a name that it does not hold itself
    is looked up in [Object.prototype].  These are the names found there:
    eleven functions and the accessor [__proto__]. *)
Definition objectPrototypeKeys : list string :=
  ["constructor"; "hasOwnProperty"; "isPrototypeOf"; "propertyIsEnumerable";
   "toLocaleString"; "toString"; "valueOf"; "__defineGetter__";
   "__defineSetter__"; "__lookupGetter__"; "__lookupSetter__"; "__proto__"].

(** A value held by [visitCounts]: a number, or a text.  The text arises
    from an inherited member, to whose text [+ 1] appends the character 1;
    [ones] is the number of characters appended so far. *)
Inductive CountValue := count_number (n : Z) | count_text (ones : nat).

(** [visitCounts[key] = (visitCounts[key] || 0) + 1].  The value read is the
    one held under the key, else the inherited member if there is one, else
    [undefined].  Assigning a text to [__proto__] stores nothing. *)
Definition countVisit (today : Date) (visitCounts : gmap string CountValue)
    (visit : VisitReport) : gmap string CountValue :=
  if countedThisMonth today visit then
    let key := targetName visit in
    let incremented :=
      match visitCounts !! key with
      | Some (count_number n) => count_number (n + 1)
      | Some (count_text ones) => count_text (S ones)
      | None =>
          if bool_decide (key ∈ objectPrototypeKeys) then count_text 1
          else count_number 1
      end in
    if bool_decide (key = "__proto__") then visitCounts
    else <[key := incremented]> visitCounts
  else visitCounts.

Definition visitCounts (today : Date) (visits : list VisitReport)
    : gmap string CountValue :=
  foldl (countVisit today) ∅ visits.

(** One step of the loop over [Object.values(visitCounts)].  A text is
    neither [=== 1] nor [=== 2], and [>= 3] reads it as [NaN]. *)
Definition bucket (count : CountValue) (f : Frequency) : Frequency :=
  match count with
  | count_number n =>
      if n =? 1 then
        {| freq1 := freq1 f + 1; freq2 := freq2 f; freq3 := freq3 f |}
      else if n =? 2 then
        {| freq1 := freq1 f; freq2 := freq2 f + 1; freq3 := freq3 f |}
      else if 3 <=? n then
        {| freq1 := freq1 f; freq2 := freq2 f; freq3 := freq3 f + 1 |}
      else f
  | count_text _ => f
  end.

(** [visitFrequency] of the representative dashboard. *)
Definition visitFrequency (today : Date) (recentVisits : list VisitReport)
    : Frequency :=
  map_fold (fun (_ : string) count f => bucket count f)
    {| freq1 := 0; freq2 := 0; freq3 := 0 |}
    (visitCounts today recentVisits).

(** [visitFrequency] of the manager dashboard: the same count over the
    reports of the selected representative. *)
Definition relevantReports (selectedRep : string)
    (allReports : list VisitReport) : list VisitReport :=
  if bool_decide (selectedRep = "all") then allReports
  else filter (fun r => repName r = selectedRep) allReports.

Definition managerVisitFrequency (today : Date) (selectedRep : string)
    (allReports : list VisitReport) : Frequency :=
  visitFrequency today (relevantReports selectedRep allReports).

(** *** What the frequency is about *)

(** The target names of the counted visits, one per visit. *)
Definition countedTargets (today : Date) (visits : list VisitReport)
    : list string :=
  targetName <$> filter (fun v => countedThisMonth today v = true) visits.

(** How many counted visits went to [target]. *)
Definition timesVisited (today : Date) (visits : list VisitReport)
    (target : string) : Z :=
  Z.of_nat (count_occ string_dec (countedTargets today visits) target).

(** How many distinct targets have a number of counted visits in [P]. *)
Definition targetsVisited (today : Date) (visits : list VisitReport)
    (P : Z -> Prop) `{!∀ c, Decision (P c)} : Z :=
  Z.of_nat
    (length
       (filter (fun target => P (timesVisited today visits target))
               (remove_dups (countedTargets today visits)))).

(** The distinct counted targets whose name is not one that a plain object
    inherits. *)
Definition plainTargets (today : Date) (visits : list VisitReport)
    : list string :=
  filter (fun target => target ∉ objectPrototypeKeys)
         (remove_dups (countedTargets today visits)).

(** How many of them have a number of counted visits in [P]. *)
Definition plainTargetsVisited (today : Date) (visits : list VisitReport)
    (P : Z -> Prop) `{!∀ c, Decision (P c)} : Z :=
  Z.of_nat
    (length
       (filter (fun target => P (timesVisited today visits target))
               (plainTargets today visits))).

(** The value that [visitCounts] holds for a counted target. *)
Definition countValueOf (today : Date) (visits : list VisitReport)
    (target : string) : CountValue :=
  if decide (target ∈ objectPrototypeKeys)
  then count_text (count_occ string_dec (countedTargets today visits) target)
  else count_number (timesVisited today visits target).

(** A stored value is a number in [P]. *)
Definition numberIn (P : Z -> Prop) (count : CountValue) : Prop :=
  match count with
  | count_number n => P n
  | count_text _ => False
  end.

#[global] Instance numberIn_dec (P : Z -> Prop) `{!∀ c, Decision (P c)}
    (count : CountValue) : Decision (numberIn P count).
Proof. destruct count; simpl; apply _. Defined.

End VisitFrequency.


(** ** The weekly-plan store ([services/api.ts]) *)

(** The requests sent to the hosted table [weekly_plans]. *)
Inductive Request :=
| SelectPlan (rep_id : string)
| UpsertPlan (rep_id : string) (row : WeeklyPlan)
| UpdateStatus (rep_id : string) (newStatus : PlanStatus).

(** The table holds one row per [rep_id]; [requests] records, oldest
    first, every request the client has sent. *)
Record Backend := {
  weekly_plans : gmap string WeeklyPlan;
  requests : list Request
}.

(** What a query resolves to: [{ data, error }]. *)
Record Response := {
  data : option WeeklyPlan;
  error : option string
}.

(** A call returns a value or throws an [Error] with a message. *)
Inductive Result (A : Type) :=
| Returned (value : A)
| Thrown (message : string).

Arguments Returned {A} value.
Arguments Thrown {A} message.

Definition withStatus (newStatus : PlanStatus) (row : WeeklyPlan) : WeeklyPlan :=
  {| plan := plan row; status := newStatus |}.

(** [.select('plan, status').eq('rep_id', repId).maybeSingle()]: no row is
    not an error. *)
Definition selectMaybeSingle (be : Backend) (rep_id : string)
    : Backend * Response :=
  ({| weekly_plans := weekly_plans be;
      requests := requests be ++ [SelectPlan rep_id] |},
   {| data := weekly_plans be !! rep_id; error := None |}).

(** [.upsert(row, { onConflict: 'rep_id' }).select('plan, status').single()]. *)
Definition upsertSingle (be : Backend) (rep_id : string) (row : WeeklyPlan)
    : Backend * Response :=
  ({| weekly_plans := <[rep_id := row]> (weekly_plans be);
      requests := requests be ++ [UpsertPlan rep_id row] |},
   {| data := Some row; error := None |}).

(** [.update({ status }).eq('rep_id', repId).select('plan, status').single()]:
    [single] reports an error when no row matches. *)
Definition updateStatusSingle (be : Backend) (rep_id : string)
    (newStatus : PlanStatus) : Backend * Response :=
  let requests' := requests be ++ [UpdateStatus rep_id newStatus] in
  match weekly_plans be !! rep_id with
  | Some row =>
      ({| weekly_plans := <[rep_id := withStatus newStatus row]> (weekly_plans be);
          requests := requests' |},
       {| data := Some (withStatus newStatus row); error := None |})
  | None =>
      ({| weekly_plans := weekly_plans be; requests := requests' |},
       {| data := None; error := Some "no rows returned" |})
  end.

(** [api.getRepPlan]. *)
Definition getRepPlan (be : Backend) (repId : string)
    : Backend * Result WeeklyPlan :=
  let '(be', response) := selectMaybeSingle be repId in
  match error response with
  | Some message => (be', Thrown message)
  | None =>
      (be', Returned (default {| plan := ∅; status := draft |} (data response)))
  end.

(** [if (error) handleSupabaseError(error, ...); return data as WeeklyPlan].
    A query with [single] resolves with a row or with an error, so the last
    case does not arise. *)
Definition returnData (response : Response) : Result WeeklyPlan :=
  match error response, data response with
  | Some message, _ => Thrown message
  | None, Some row => Returned row
  | None, None => Thrown "no data"
  end.

(** [api.updateRepPlan]. *)
Definition updateRepPlan (be : Backend) (repId : string) (planData : PlanData)
    : Backend * Result WeeklyPlan :=
  let '(be', response) :=
    upsertSingle be repId {| plan := planData; status := pending |} in
  (be', returnData response).

Inductive ReviewStatus := review_approved | review_rejected.

Definition statusOfReview (r : ReviewStatus) : PlanStatus :=
  match r with
  | review_approved => approved
  | review_rejected => rejected
  end.

(** [api.reviewRepPlan]. *)
Definition reviewRepPlan (be : Backend) (repId : string)
    (newStatus : ReviewStatus) : Backend * Result WeeklyPlan :=
  let '(be', response) := updateStatusSingle be repId (statusOfReview newStatus) in
  (be', returnData response).

(** [api.revokePlanApproval]. *)
Definition revokePlanApproval (be : Backend) (repId : string)
    : Backend * Result WeeklyPlan :=
  let '(be', response) := updateStatusSingle be repId draft in
  (be', returnData response).

(** [handleSave] of the plan editor: the store after the call, and the
    plan handed to [onPlanSaved] when the call returns. *)
Definition handleSave (user : User) (planData : PlanData) (be : Backend)
    : Backend * option WeeklyPlan :=
  match updateRepPlan be (user_id user) (cleanedPlan planData) with
  | (be', Returned updatedPlan) => (be', Some updatedPlan)
  | (be', Thrown _) => (be', None)
  end.

(** ** The manager dashboard ([components/ManagerDashboard.tsx]) *)

Inductive MessageType := success | failure.

Record ReviewMessage := {
  text : string;
  message_type : MessageType
}.

Record ManagerState := {
  user : option User;
  reps : list User;
  allPlans : gmap string WeeklyPlan;
  reviewMessage : option ReviewMessage
}.

Section ManagerDashboard.

(** The translation function: a key and its arguments give a text. *)
Variable t : string -> list string -> string.

Definition setAllPlans (st : ManagerState) (plans : gmap string WeeklyPlan)
    : ManagerState :=
  {| user := user st; reps := reps st; allPlans := plans;
     reviewMessage := reviewMessage st |}.

Definition setReviewMessage (st : ManagerState) (message : ReviewMessage)
    : ManagerState :=
  {| user := user st; reps := reps st; allPlans := allPlans st;
     reviewMessage := Some message |}.

(** [{ ...prevPlans[repId], status }]; an absent entry contributes no
    plan, which is read here as the empty plan. *)
Definition optimisticStatus (prevPlans : gmap string WeeklyPlan)
    (repId : string) (newStatus : PlanStatus) : gmap string WeeklyPlan :=
  <[repId := {| plan := from_option plan ∅ (prevPlans !! repId);
                status := newStatus |}]> prevPlans.

(** [reps.find(r => r.id === repId)?.name || '']. *)
Definition repNameOf (st : ManagerState) (repId : string) : string :=
  from_option user_name "" (find (fun r => bool_decide (user_id r = repId)) (reps st)).

(** [handleReviewPlan]. *)
Definition handleReviewPlan (repId : string) (newStatus : ReviewStatus)
    (st : ManagerState) (be : Backend) : ManagerState * Backend :=
  match reviewRepPlan be repId newStatus with
  | (be', Returned _) =>
      let st' :=
        setAllPlans st (optimisticStatus (allPlans st) repId (statusOfReview newStatus)) in
      let messageKey :=
        match newStatus with
        | review_approved => "plan_approved_success"
        | review_rejected => "plan_rejected_success"
        end in
      (setReviewMessage st'
         {| text := t messageKey [repNameOf st repId]; message_type := success |},
       be')
  | (be', Thrown _) =>
      (setReviewMessage st
         {| text := t "plan_review_error" []; message_type := failure |},
       be')
  end.

(** [handleRevokeApproval]. *)
Definition handleRevokeApproval (repId : string)
    (st : ManagerState) (be : Backend) : ManagerState * Backend :=
  if bool_decide (role <$> user st ≠ Some Manager) then
    (setReviewMessage st
       {| text := t "error_permission_denied" []; message_type := failure |},
     be)
  else
    match revokePlanApproval be repId with
    | (be', Returned _) =>
        let st' := setAllPlans st (optimisticStatus (allPlans st) repId draft) in
        (setReviewMessage st'
           {| text := t "plan_revoked_success" [repNameOf st repId];
              message_type := success |},
         be')
    | (be', Thrown _) =>
        (setReviewMessage st
           {| text := t "plan_revoke_error" []; message_type := failure |},
         be')
    end.

End ManagerDashboard.

(** [pendingPlans]: the plans the approvals tab lists, each with its
    reject and approve buttons. *)
Definition pendingPlans (plans : gmap string WeeklyPlan)
    : list (string * WeeklyPlan) :=
  filter (fun entry => status entry.2 = pending) (map_to_list plans).

(** The condition under which a row of the weekly-plans tab shows the
    revoke button. *)
Definition showsRevokeButton (currentUser : option User) (p : WeeklyPlan) : bool :=
  bool_decide (role <$> currentUser = Some Manager)
  && bool_decide (status p = approved).

(** [App.tsx]: which dashboard a signed-in user gets. *)
Inductive Dashboard := ManagerDashboard | RepDashboard.

Definition dashboardFor (u : User) : Dashboard :=
  if bool_decide (role u = Manager) || bool_decide (role u = Supervisor)
  then ManagerDashboard else RepDashboard.

(** ** The lifecycle table *)

Inductive Trigger := submits | approves | rejects | revokes.

(** Modelled from the spec: the transition table of the plan lifecycle
    (section 4.4), which the source holds in no single place.  The result
    is the target status of a listed transition. *)
Definition listedTransition (from : PlanStatus) (actor : UserRole)
    (trigger : Trigger) : option PlanStatus :=
  match from, trigger, actor with
  | draft, submits, Rep => Some pending
  | rejected, submits, Rep => Some pending
  | pending, approves, Manager => Some approved
  | pending, approves, Supervisor => Some approved
  | pending, rejects, Manager => Some rejected
  | pending, rejects, Supervisor => Some rejected
  | approved, revokes, Manager => Some draft
  | _, _, _ => None
  end.

(** ** Controls offered by the dashboards *)

(** The manager dashboard shows [currentUser] a control that fires
    [trigger] on the plan of [repId]: approve and reject on the entries of
    [pendingPlans], revoke where [showsRevokeButton] holds.  Submitting is
    not an action of this dashboard.  [plans] is the dashboard's copy of
    the plans, [allPlans]. *)
Definition offersControl (currentUser : User) (plans : gmap string WeeklyPlan)
    (repId : string) (trigger : Trigger) : Prop :=
  dashboardFor currentUser = ManagerDashboard
  ∧ match trigger with
    | approves | rejects => ∃ p, (repId, p) ∈ pendingPlans plans
    | revokes =>
        ∃ p, plans !! repId = Some p
             ∧ showsRevokeButton (Some currentUser) p = true
    | submits => False
    end.

(** ** Proof tools *)

(** Evaluate the remainders of closed numbers. *)
Ltac eval_rem :=
  repeat match goal with
         | |- context [Z.rem ?a ?b] =>
             let v := eval vm_compute in (Z.rem a b) in
             progress change (Z.rem a b) with v
         | H : context [Z.rem ?a ?b] |- _ =>
             let v := eval vm_compute in (Z.rem a b) in
             progress change (Z.rem a b) with v in H
         end.

(** ** Sample data used by the examples *)

Definition sampleDoctors : list Doctor :=
  [ {| doctor_id := 10; doctor_name := "Dr. Amal"; doctor_regionId := 2;
       doctor_repId := "rep-1"; doctor_specialization := "PEDIATRICS" |};
    {| doctor_id := 11; doctor_name := "Dr. Basil"; doctor_regionId := 1;
       doctor_repId := "rep-1"; doctor_specialization := "PULMONOLOGY" |};
    {| doctor_id := 12; doctor_name := "Dr. Careem"; doctor_regionId := 1;
       doctor_repId := "rep-1"; doctor_specialization := "PEDIATRICS" |} ].

(** Saturday is planned in region 1 with doctor 11; Sunday is a rest day. *)
Definition samplePlan : PlanData :=
  <[6 := Some {| regionId := 1; doctorIds := [11] |}]> (<[0 := None]> ∅).

(** The translation that shows the key itself. *)
Definition showKey (key : string) (_ : list string) : string := key.

Definition sampleManager : User :=
  {| user_id := "mgr-1"; user_name := "Mona"; username := "mona";
     role := Manager |}.

Definition sampleSupervisor : User :=
  {| user_id := "sup-1"; user_name := "Sami"; username := "sami";
     role := Supervisor |}.

Definition sampleRep : User :=
  {| user_id := "rep-1"; user_name := "Rami"; username := "rami";
     role := Rep |}.

(** The store holds one plan, a draft of representative [rep-1]. *)
Definition sampleBackend : Backend :=
  {| weekly_plans := {[ "rep-1" := {| plan := samplePlan; status := draft |} ]};
     requests := [] |}.

Definition sampleManagerState (currentUser : User) : ManagerState :=
  {| user := Some currentUser; reps := [sampleRep];
     allPlans := weekly_plans sampleBackend; reviewMessage := None |}.

(** Dates are written [YYYY-MM-DD] and read as local midnight. *)
Definition digitsToZ (s : string) : Z := default 0 (parseDigits None s).

Definition parseIsoDay (s : string) : option Date :=
  if bool_decide (String.length s = 10%nat) then
    Some (newDateYMD (digitsToZ (substring 0 4 s))
                     (digitsToZ (substring 5 2 s) - 1)
                     (digitsToZ (substring 8 2 s)))
  else None.

Definition sampleVisit (kind : VisitType) (target day : string) : VisitReport :=
  {| report_id := ""; type := kind; repName := "Rami"; regionName := "North";
     targetName := target; targetSpecialization := None; productName := None;
     visitType := None; notes := ""; date := day |}.

(** Visits around November 2026: Dr. Amal once, Dr. Basil twice, Dr. Careem
    three times, a pharmacy, a visit of October and one of the day after
    [sampleToday]. *)
Definition sampleVisits : list VisitReport :=
  [ sampleVisit DOCTOR_VISIT "Dr. Amal" "2026-11-01";
    sampleVisit DOCTOR_VISIT "Dr. Basil" "2026-11-02";
    sampleVisit DOCTOR_VISIT "Dr. Careem" "2026-11-01";
    sampleVisit PHARMACY_VISIT "City Pharmacy" "2026-11-02";
    sampleVisit DOCTOR_VISIT "Dr. Basil" "2026-11-03";
    sampleVisit DOCTOR_VISIT "Dr. Careem" "2026-11-02";
    sampleVisit DOCTOR_VISIT "Dr. Amal" "2026-10-31";
    sampleVisit DOCTOR_VISIT "Dr. Careem" "2026-11-03";
    sampleVisit DOCTOR_VISIT "Dr. Amal" "2026-11-04" ].

(** Tuesday 3 November 2026, local midnight. *)
Definition sampleToday : Date := newDateYMD 2026 10 3.

(** ** More of the plan editor and of the dashboards *)

#[global] Instance Doctor_eq_dec : EqDecision Doctor.
Proof. solve_decision. Defined.

(** The date that [getDayDateLabel] of the plan editor formats as day and
    month; [None] stands for the empty label it gives without a start
    date. *)
Definition getDayDate (startDate : option Date) (dayIndex : Z) : option Date :=
  match startDate with
  | None => None
  | Some start =>
      let offset := if dayIndex =? 6 then 0 else dayIndex + 1 in
      Some (addDays start offset)
  end.

(** [getWeekDates] of the weekly view: the seven dates of the week of
    [currentDate], from its Saturday. *)
Definition getWeekDates (currentDate : Date) : list Date :=
  let day := getDay currentDate in
  let diff := if day <? 6 then day + 1 else 0 in
  let d := addDays currentDate (- diff) in
  (fun i => addDays d i) <$> seqZ 0 7.

Inductive Direction := prev | next.

(** [navigateWeek] of the weekly view: the update of [currentDate]. *)
Definition navigateWeek (direction : Direction) (previous : Date) : Date :=
  addDays previous (match direction with next => 7 | prev => -7 end).

(** The two dates that [getCurrentWeekDateStrings] of the manager
    dashboard formats. *)
Definition getCurrentWeekDates (today : Date) : Date * Date :=
  let dayOfWeek := getDay today in
  let startDate :=
    addDays today (- (if dayOfWeek =? 6 then 0 else dayOfWeek + 1)) in
  let endDate := addDays startDate 6 in
  (startDate, endDate).

(** The doctor selector of a day of the work week, as it is rendered:
    [None] when it is not rendered, which is when the day has no region id
    or the region id is 0 ([selectedRegionId && ...]); otherwise its
    options. *)
Definition doctorSelectorOptions (allDoctors : list Doctor)
    (planData : PlanData) (dayIndex : Z) : option (list Doctor) :=
  if bool_decide (dayIndex ∈ WORK_WEEK_DAYS) then
    match planData !! dayIndex with
    | Some (Some dayPlan) =>
        if regionId dayPlan =? 0 then None
        else Some (availableDoctorsInRegion allDoctors planData dayIndex)
    | _ => None
    end
  else None.

(** [handleWeekendChange] of the settings tab. *)
Definition handleWeekendChange (dayIndex : Z) (previous : list Z) : list Z :=
  if bool_decide (dayIndex ∈ previous)
  then filter (fun d => d ≠ dayIndex) previous
  else previous ++ [dayIndex].

(** [handleRepSelectionChange] of the export dialog. *)
Definition handleRepSelectionChange (repId : string) (previous : list string)
    : list string :=
  if bool_decide (repId ∈ previous)
  then filter (fun i => i ≠ repId) previous
  else previous ++ [repId].

(** [handleProductChange] of the visit form. *)
Definition handleProductChange (productId : Z) (previous : list Z) : list Z :=
  if bool_decide (productId ∈ previous)
  then filter (fun i => i ≠ productId) previous
  else if bool_decide (length previous < 3)%nat
       then previous ++ [productId]
       else previous.

(** *** The representative's day and month *)

Section RepDashboardCounts.

Variable newDate : string -> option Date.

(** [doctorNameToIdMap]: [new Map(doctors.map(d => [d.name, d.id]))]; a
    later doctor of the same name replaces an earlier one. *)
Definition doctorNameToIdMap (doctors : list Doctor) : gmap string Z :=
  foldl (fun m d => <[doctor_name d := doctor_id d]> m) ∅ doctors.

(** A doctor visit whose date has the [toDateString] of today, that is,
    falls on today's local day. *)
Definition doctorVisitOfToday (today : Date) (v : VisitReport) : bool :=
  match newDate (date v) with
  | Some visitDate =>
      bool_decide (localDay visitDate = localDay today)
      && bool_decide (type v = DOCTOR_VISIT)
  | None => false
  end.

(** [pendingDoctorsForToday]. *)
Definition pendingDoctorsForToday (currentPlan : option WeeklyPlan)
    (today : Date) (recentVisits : list VisitReport) (doctors : list Doctor)
    : list Doctor :=
  match currentPlan with
  | None => []
  | Some p =>
      let todayIndex := getDay today in
      let todaysDoctorIds := doctorsForDay (default None (plan p !! todayIndex)) in
      if bool_decide (length todaysDoctorIds = 0%nat) then []
      else
        let visitedDoctorIds : gset Z :=
          list_to_set
            (omap (fun v => doctorNameToIdMap doctors !! targetName v)
                  (filter (fun v => doctorVisitOfToday today v = true)
                          recentVisits)) in
        let pendingDoctorIds :=
          filter (fun i => i ∉ visitedDoctorIds) todaysDoctorIds in
        filter (fun d => doctor_id d ∈ pendingDoctorIds) doctors
  end.

(** The loop of [monthlyCounts]: the visits dated from the start of the
    month up to now are counted by type, and the ISO date of each is put
    in the set of working days. *)
Record MonthTally := {
  doctorVisits : Z;
  pharmacyVisits : Z;
  workingDays : gset string
}.

Definition inCurrentMonth (today : Date) (visit : VisitReport) : bool :=
  match newDate (date visit) with
  | Some visitDate =>
      (startOfMonth today <=? visitDate) && (visitDate <=? today)
  | None => false
  end.

End RepDashboardCounts.

(** *** ISO dates *)

Section HostZone.

(** The host's local time minus UTC, in milliseconds. *)
Variable utcOffset : Z.

(** [s.padStart(width, '0')]. *)
Definition padStart (width : nat) (s : string) : string :=
  String.concat "" (replicate (width - String.length s) "0") +:+ s.

(** The year of an ISO date: four digits, or a sign and six digits outside
    0 to 9999. *)
Definition isoYear (year : Z) : string :=
  if (0 <=? year) && (year <=? 9999) then padStart 4 (pretty year)
  else (if year <? 0 then "-" else "+") +:+ padStart 6 (pretty (Z.abs year)).

(** The ISO name [YYYY-MM-DD] of a day number. *)
Definition isoDay (dayNumber : Z) : string :=
  let '(year, month, dayOfMonth) := civilFromDays dayNumber in
  isoYear year +:+ "-" +:+ padStart 2 (pretty month)
  +:+ "-" +:+ padStart 2 (pretty dayOfMonth).

(** [toYYYYMMDD]: [date.toISOString().split('T')[0]], the date in UTC. *)
Definition toYYYYMMDD (d : Date) : string :=
  isoDay ((d - utcOffset) / msPerDay).

(** [getTodayDateString] of the manager dashboard, at the instant [now]. *)
Definition getTodayDateString (now : Date) : string := toYYYYMMDD now.

(** [getCurrentWeekDateStrings] of the manager dashboard. *)
Definition getCurrentWeekDateStrings (today : Date) : string * string :=
  let '(startDate, endDate) := getCurrentWeekDates today in
  (toYYYYMMDD startDate, toYYYYMMDD endDate).

Variable newDate : string -> option Date.

Definition tallyVisit (today : Date) (tally : MonthTally) (visit : VisitReport)
    : MonthTally :=
  match newDate (date visit) with
  | Some visitDate =>
      if (startOfMonth today <=? visitDate) && (visitDate <=? today) then
        let dateStr := toYYYYMMDD visitDate in
        {| doctorVisits :=
             match type visit with
             | DOCTOR_VISIT => doctorVisits tally + 1
             | PHARMACY_VISIT => doctorVisits tally
             end;
           pharmacyVisits :=
             match type visit with
             | DOCTOR_VISIT => pharmacyVisits tally
             | PHARMACY_VISIT => pharmacyVisits tally + 1
             end;
           workingDays := {[ dateStr ]} ∪ workingDays tally |}
      else tally
  | None => tally
  end.

Definition monthTally (today : Date) (recentVisits : list VisitReport)
    : MonthTally :=
  foldl (tallyVisit today)
        {| doctorVisits := 0; pharmacyVisits := 0; workingDays := ∅ |}
        recentVisits.

(** [monthlyCounts.visitsPerWorkingDay] is the floating-point quotient of
    [totalMonthlyVisits] by [numberOfWorkingDays] when the latter is
    positive, and 0 otherwise.  The pair holds the two operands; [None]
    stands for the 0 of the other branch. *)
Definition visitsPerWorkingDay (tally : MonthTally) : option (Z * Z) :=
  let totalMonthlyVisits := doctorVisits tally + pharmacyVisits tally in
  let numberOfWorkingDays := Z.of_nat (size (workingDays tally)) in
  if 0 <? numberOfWorkingDays
  then Some (totalMonthlyVisits, numberOfWorkingDays)
  else None.

End HostZone.

(** *** The visit form ([components/VisitForm.tsx]) *)

Inductive VisitTargetType := visit_doctor | visit_pharmacy.

Inductive DoctorVisitType := Coaching | Single.

Record VisitFormState := {
  visitTargetType : VisitTargetType;
  form_regionId : string;
  targetId : string;
  selectedProductIds : list Z;
  form_visitType : option DoctorVisitType;
  form_notes : string
}.

(** The call that the form makes, with its argument. *)
Inductive VisitCall :=
| addDoctorVisit (doctorId : option Z) (repId : string) (productIds : list Z)
    (visitRegionId : option Z) (kind : DoctorVisitType) (doctorComment : string)
| addPharmacyVisit (pharmacyId : option Z) (repId : string)
    (visitRegionId : option Z) (visitNotes : string).

Section VisitForm.

Variable parseInt : string -> option Z.

(** [String.prototype.trim]. *)
Variable trim : string -> string.

Variable t : string -> list string -> string.

(** The messages that [handleSubmit] collects, in order. *)
Definition submitErrors (st : VisitFormState) : list string :=
  (if bool_decide (targetId st = "") then [t "error_select_client" []] else [])
  ++ (if bool_decide (trim (form_notes st) = "")
      then [t "error_add_notes" []] else [])
  ++ match visitTargetType st with
     | visit_doctor =>
         (if bool_decide (length (selectedProductIds st) = 0%nat)
          then [t "error_select_product" []] else [])
         ++ (if bool_decide (form_visitType st = None)
             then [t "error_select_visit_type" []] else [])
     | visit_pharmacy => []
     end.

(** [handleSubmit]: the error text it shows, or the call it makes. *)
Definition handleSubmit (u : User) (st : VisitFormState) : string + VisitCall :=
  let errors := submitErrors st in
  if bool_decide (0 < length errors)%nat then inl (String.concat " " errors)
  else
    match visitTargetType st, form_visitType st with
    | visit_doctor, Some kind =>
        inr (addDoctorVisit (parseInt (targetId st)) (user_id u)
               (selectedProductIds st) (parseInt (form_regionId st))
               kind (form_notes st))
    | _, _ =>
        inr (addPharmacyVisit (parseInt (targetId st)) (user_id u)
               (parseInt (form_regionId st)) (form_notes st))
    end.

End VisitForm.

(** ** The cache ([services/cacheService.ts]) *)

Module cacheService.

Section Cache.

(** The type of the cached data. *)
Context {T : Type}.

Record CacheItem := {
  data : T;
  timestamp : Z;
  expiry : Z
}.

(** 15 minutes in milliseconds. *)
Definition CACHE_EXPIRY_TIME : Z := 15 * 60 * 1000.

Definition CACHE_PREFIX : string := "sanivita_crm_cache_".

(** [isExpired], with [now] for [Date.now()]. *)
Definition isExpired (now : Z) (cacheItem : CacheItem) : bool :=
  expiry cacheItem <? now.

Definition getCacheKey (key : string) : string := CACHE_PREFIX +:+ key.

(** [get]: the store after the call and the value returned, [None] for
    [null]. *)
Definition get (now : Z) (key : string) (cacheStore : gmap string CacheItem)
    : gmap string CacheItem * option T :=
  let cacheKey := getCacheKey key in
  match cacheStore !! cacheKey with
  | None => (cacheStore, None)
  | Some cacheItem =>
      if isExpired now cacheItem then (delete cacheKey cacheStore, None)
      else (cacheStore, Some (data cacheItem))
  end.

(** [set]; a custom expiry that is absent or 0 gives way to the default.
    The two readings of the clock in one call are taken as one instant. *)
Definition set (now : Z) (key : string) (value : T) (customExpiry : option Z)
    (cacheStore : gmap string CacheItem) : gmap string CacheItem :=
  let cacheKey := getCacheKey key in
  let chosenExpiry :=
    match customExpiry with
    | Some e => if e =? 0 then now + CACHE_EXPIRY_TIME else e
    | None => now + CACHE_EXPIRY_TIME
    end in
  <[cacheKey := {| data := value; timestamp := now; expiry := chosenExpiry |}]>
    cacheStore.

Definition remove (key : string) (cacheStore : gmap string CacheItem)
    : gmap string CacheItem :=
  delete (getCacheKey key) cacheStore.

Definition clear (cacheStore : gmap string CacheItem) : gmap string CacheItem :=
  filter (fun entry => String.prefix CACHE_PREFIX entry.1 = false) cacheStore.

Definition has (now : Z) (key : string) (cacheStore : gmap string CacheItem)
    : gmap string CacheItem * bool :=
  let cacheKey := getCacheKey key in
  match cacheStore !! cacheKey with
  | None => (cacheStore, false)
  | Some cacheItem =>
      if isExpired now cacheItem then (delete cacheKey cacheStore, false)
      else (cacheStore, true)
  end.

End Cache.

End cacheService.

(** * Properties *)

(** ** The plan editor *)

Section PlanEditorProperties.

Variable parseInt : string -> option Z.
Variable allDoctors : list Doctor.

Lemma elem_of_assignedDoctorIds (planData : PlanData) (x : Z) :
  x ∈ assignedDoctorIds planData ↔
  ∃ i details, planData !! i = Some (Some details) ∧ x ∈ doctorIds details.
Proof.
  unfold assignedDoctorIds.
  apply (map_fold_weak_ind
           (fun (r : gset Z) (m : PlanData) =>
              x ∈ r ↔ ∃ i d, m !! i = Some (Some d) ∧ x ∈ doctorIds d)).
  - split; [set_solver|].
    intros (i & d & Hi & _). by rewrite lookup_empty in Hi.
  - intros i o m r Hfresh IH. split.
    + intros Hx.
      assert (x ∈ r ∨ ∃ d, o = Some d ∧ x ∈ doctorIds d) as [Hr|(d & -> & Hd)].
      { destruct o as [d|]; [|by left].
        apply elem_of_union in Hx as [Hx|Hx]; [right|by left].
        exists d. by rewrite elem_of_list_to_set in Hx. }
      * apply IH in Hr as (j & d & Hj & Hd).
        exists j, d. split; [|done].
        rewrite lookup_insert_ne; [done|]. intros ->. congruence.
      * exists i, d. by rewrite lookup_insert_eq.
    + intros (j & d & Hj & Hd).
      destruct (decide (i = j)) as [->|Hne].
      * rewrite lookup_insert_eq in Hj. injection Hj as ->.
        apply elem_of_union. left. by apply elem_of_list_to_set.
      * rewrite lookup_insert_ne in Hj by done.
        assert (x ∈ r) by (apply IH; eauto).
        destruct o; [apply elem_of_union; by right|done].
Qed.

Lemma noDoctorOnTwoDays_spec (planData : PlanData) :
  noDoctorOnTwoDays planData ↔
  ∀ i j a b x,
    planData !! i = Some (Some a) → planData !! j = Some (Some b) →
    x ∈ doctorIds a → x ∈ doctorIds b → i = j.
Proof.
  unfold noDoctorOnTwoDays, map_Forall, daysShareNoDoctor. split.
  - intros H i j a b x Hi Hj Ha Hb.
    destruct (H i (Some a) Hi j (Some b) Hj) as [|Hall]; [done|].
    rewrite Forall_forall in Hall. by destruct (Hall x Ha).
  - intros H i oa Hi j ob Hj.
    destruct (decide (i = j)) as [|Hne]; [by left|right].
    apply Forall_forall. intros x Ha Hb.
    destruct oa as [a|], ob as [b|]; simpl in *;
      try (by apply elem_of_nil in Ha); try (by apply elem_of_nil in Hb).
    apply Hne. eauto.
Qed.

Lemma doctorsInDayRegion_spec (planData : PlanData) :
  doctorsInDayRegion allDoctors planData ↔
  ∀ i a x,
    planData !! i = Some (Some a) → x ∈ doctorIds a →
    belongsToRegion allDoctors x (regionId a).
Proof.
  unfold doctorsInDayRegion, map_Forall. split.
  - intros H i a x Hi Hx. specialize (H i (Some a) Hi). simpl in H.
    rewrite Forall_forall in H. auto.
  - intros H i [a|] Hi; simpl; [|done].
    apply Forall_forall. eauto.
Qed.

(** Replacing one day by an entry whose doctors were already on that day,
    or were on no day at all, keeps the doctors of different days apart. *)
Lemma noDoctorOnTwoDays_insert (planData : PlanData) (d : Z)
    (entry : option DayPlanDetails) :
  noDoctorOnTwoDays planData →
  (∀ x, x ∈ doctorsForDay entry →
        x ∈ doctorsForDay (default None (planData !! d))
        ∨ x ∉ assignedDoctorIds planData) →
  noDoctorOnTwoDays (<[d := entry]> planData).
Proof.
  rewrite !noDoctorOnTwoDays_spec. intros Huniq Hentry.
  assert (∀ j a b x, entry = Some a → x ∈ doctorIds a → j ≠ d →
            planData !! j = Some (Some b) → x ∈ doctorIds b → False) as Hcross.
  { intros j a b x -> Ha Hne Hj Hb.
    destruct (Hentry x Ha) as [Hold|Hnew].
    - destruct (planData !! d) as [[c|]|] eqn:Hd; simpl in Hold;
        try (by apply elem_of_nil in Hold).
      apply Hne. eauto.
    - apply Hnew, elem_of_assignedDoctorIds. eauto. }
  intros i j a b x Hi Hj Ha Hb.
  destruct (decide (i = j)) as [|Hij]; [done|exfalso].
  apply lookup_insert_Some in Hi as [[<- Hi]|[Hid Hi]];
    apply lookup_insert_Some in Hj as [[<- Hj]|[Hjd Hj]].
  - done.
  - apply (Hcross j a b x); auto.
  - apply (Hcross i b a x); auto.
  - apply Hij. eauto.
Qed.

Lemma doctorsInDayRegion_insert (planData : PlanData) (d : Z)
    (entry : option DayPlanDetails) :
  doctorsInDayRegion allDoctors planData →
  dayInRegion allDoctors entry →
  doctorsInDayRegion allDoctors (<[d := entry]> planData).
Proof.
  unfold doctorsInDayRegion. intros Hplan Hentry.
  by apply map_Forall_insert_2.
Qed.

Lemma handleRegionChange_unique dayIndex regionIdStr (planData : PlanData) :
  noDoctorOnTwoDays planData →
  noDoctorOnTwoDays (handleRegionChange parseInt dayIndex regionIdStr planData).
Proof.
  intros Huniq. unfold handleRegionChange.
  assert (noDoctorOnTwoDays (<[dayIndex := None]> planData)) as Hnull.
  { apply noDoctorOnTwoDays_insert; [done|].
    intros x Hx. by apply elem_of_nil in Hx. }
  case_bool_decide; [done|].
  destruct (parseInt regionIdStr) as [newRegionId|]; [|done].
  apply noDoctorOnTwoDays_insert; [done|]. simpl. intros x Hx. left.
  destruct (planData !! dayIndex) as [[entry|]|]; simpl;
    try (by apply elem_of_nil in Hx).
  destruct (regionId entry =? newRegionId); [done|by apply elem_of_nil in Hx].
Qed.

Lemma handleAddDoctor_unique dayIndex doctorIdStr (planData : PlanData) :
  noDoctorOnTwoDays planData →
  noDoctorOnTwoDays
    (handleAddDoctor parseInt allDoctors (assignedDoctorIds planData)
       dayIndex doctorIdStr planData).
Proof.
  intros Huniq. unfold handleAddDoctor.
  destruct (parseInt doctorIdStr) as [doctorId|]; [|done].
  case_bool_decide as Hassigned; [done|].
  destruct (planData !! dayIndex) as [[entry|]|] eqn:Hday.
  - case_bool_decide; [done|].
    apply noDoctorOnTwoDays_insert; [done|]. simpl. intros x Hx.
    rewrite Hday. simpl.
    apply elem_of_app in Hx as [Hx|Hx]; [by left|right].
    apply list_elem_of_singleton in Hx as ->. done.
  - destruct (find _ allDoctors); [|done].
    apply noDoctorOnTwoDays_insert; [done|]. simpl. intros x Hx. right.
    apply list_elem_of_singleton in Hx as ->. done.
  - destruct (find _ allDoctors); [|done].
    apply noDoctorOnTwoDays_insert; [done|]. simpl. intros x Hx. right.
    apply list_elem_of_singleton in Hx as ->. done.
Qed.

Lemma handleRemoveDoctor_unique dayIndex doctorId (planData : PlanData) :
  noDoctorOnTwoDays planData →
  noDoctorOnTwoDays (handleRemoveDoctor dayIndex doctorId planData).
Proof.
  intros Huniq. unfold handleRemoveDoctor.
  destruct (planData !! dayIndex) as [[entry|]|] eqn:Hday; [|done..].
  apply noDoctorOnTwoDays_insert; [done|]. simpl. intros x Hx. left.
  rewrite Hday. simpl. by apply list_elem_of_filter in Hx as [_ Hx].
Qed.

Lemma applyMutation_unique (planData : PlanData) (m : Mutation) :
  noDoctorOnTwoDays planData →
  noDoctorOnTwoDays (applyMutation parseInt allDoctors planData m).
Proof.
  destruct m; simpl;
    auto using handleRegionChange_unique, handleAddDoctor_unique,
               handleRemoveDoctor_unique.
Qed.

Lemma handleRegionChange_region dayIndex regionIdStr (planData : PlanData) :
  doctorsInDayRegion allDoctors planData →
  doctorsInDayRegion allDoctors
    (handleRegionChange parseInt dayIndex regionIdStr planData).
Proof.
  intros Hreg. unfold handleRegionChange.
  case_bool_decide; [by apply doctorsInDayRegion_insert|].
  destruct (parseInt regionIdStr) as [newRegionId|];
    [|by apply doctorsInDayRegion_insert].
  apply doctorsInDayRegion_insert; [done|]. simpl.
  destruct (planData !! dayIndex) as [[entry|]|] eqn:Hday; try by constructor.
  destruct (Z.eqb_spec (regionId entry) newRegionId) as [<-|]; [|by constructor].
  apply Forall_forall. intros x Hx.
  by apply (proj1 (doctorsInDayRegion_spec planData) Hreg dayIndex).
Qed.

Lemma find_belongsToRegion (doctorId : Z) (doctor : Doctor) :
  find (fun d => doctor_id d =? doctorId) allDoctors = Some doctor →
  belongsToRegion allDoctors doctorId (doctor_regionId doctor).
Proof.
  intros Hfind. apply find_some in Hfind as [Hin Hid].
  apply Exists_exists. exists doctor.
  rewrite list_elem_of_In. split; [done|]. split; [lia|done].
Qed.

Lemma handleAddDoctor_region assigned dayIndex doctorIdStr (planData : PlanData) :
  doctorsInDayRegion allDoctors planData →
  addRespectsRegion parseInt allDoctors planData (AddDoctor dayIndex doctorIdStr) →
  doctorsInDayRegion allDoctors
    (handleAddDoctor parseInt allDoctors assigned dayIndex doctorIdStr planData).
Proof.
  intros Hreg Hadd. unfold handleAddDoctor. simpl in Hadd.
  destruct (parseInt doctorIdStr) as [doctorId|]; [|done].
  case_bool_decide; [done|].
  destruct (planData !! dayIndex) as [[entry|]|] eqn:Hday.
  - case_bool_decide; [done|].
    apply doctorsInDayRegion_insert; [done|]. simpl.
    apply Forall_app. split; [|by repeat constructor].
    apply Forall_forall. intros x Hx.
    by apply (proj1 (doctorsInDayRegion_spec planData) Hreg dayIndex).
  - destruct (find _ allDoctors) as [doctor|] eqn:Hfind; [|done].
    apply doctorsInDayRegion_insert; [done|]. simpl.
    repeat constructor. by apply find_belongsToRegion.
  - destruct (find _ allDoctors) as [doctor|] eqn:Hfind; [|done].
    apply doctorsInDayRegion_insert; [done|]. simpl.
    repeat constructor. by apply find_belongsToRegion.
Qed.

Lemma handleRemoveDoctor_region dayIndex doctorId (planData : PlanData) :
  doctorsInDayRegion allDoctors planData →
  doctorsInDayRegion allDoctors (handleRemoveDoctor dayIndex doctorId planData).
Proof.
  intros Hreg. unfold handleRemoveDoctor.
  destruct (planData !! dayIndex) as [[entry|]|] eqn:Hday; [|done..].
  apply doctorsInDayRegion_insert; [done|]. simpl.
  apply Forall_forall. intros x Hx. apply list_elem_of_filter in Hx as [_ Hx].
  by apply (proj1 (doctorsInDayRegion_spec planData) Hreg dayIndex).
Qed.

Lemma applyMutation_region (planData : PlanData) (m : Mutation) :
  doctorsInDayRegion allDoctors planData →
  addRespectsRegion parseInt allDoctors planData m →
  doctorsInDayRegion allDoctors (applyMutation parseInt allDoctors planData m).
Proof.
  destruct m; simpl applyMutation;
    auto using handleRegionChange_region, handleAddDoctor_region,
               handleRemoveDoctor_region.
Qed.

Lemma applyMutations_unique (ms : list Mutation) (planData : PlanData) :
  noDoctorOnTwoDays planData →
  noDoctorOnTwoDays (applyMutations parseInt allDoctors planData ms).
Proof.
  unfold applyMutations. revert planData.
  induction ms as [|m ms IH]; intros planData Huniq; simpl; [done|].
  by apply IH, applyMutation_unique.
Qed.

Lemma applyMutations_region (ms : list Mutation) (planData : PlanData) :
  doctorsInDayRegion allDoctors planData →
  addsRespectRegion parseInt allDoctors planData ms →
  doctorsInDayRegion allDoctors (applyMutations parseInt allDoctors planData ms).
Proof.
  unfold applyMutations. revert planData.
  induction ms as [|m ms IH]; intros planData Hreg Hadds; simpl; [done|].
  destruct Hadds as [Hadd Hrest].
  apply IH; [by apply applyMutation_region|done].
Qed.

(** Every option of a day's selector names a doctor of the day's region. *)
Lemma offered_respects_region (planData : PlanData) dayIndex doctorIdStr doc :
  doc ∈ availableDoctorsInRegion allDoctors planData dayIndex →
  parseInt doctorIdStr = Some (doctor_id doc) →
  addRespectsRegion parseInt allDoctors planData (AddDoctor dayIndex doctorIdStr).
Proof.
  unfold availableDoctorsInRegion. simpl. intros Hdoc ->.
  destruct (planData !! dayIndex) as [[entry|]|]; [|done..].
  apply list_elem_of_filter in Hdoc as [[Hregion _] Hin].
  apply Exists_exists. by exists doc.
Qed.

End PlanEditorProperties.

(** C1, as amended.  From a plan that satisfies both invariants, every
    sequence of [handleRegionChange], [handleAddDoctor] and
    [handleRemoveDoctor] leaves no doctor id under two days; and it leaves
    every listed doctor in the region of its day provided each
    [handleAddDoctor] on a day that already has an assignment names a doctor
    of that day's region. *)
Theorem mutations_preserve_plan_invariants
    (parseInt : string -> option Z) (allDoctors : list Doctor)
    (ms : list Mutation) (planData : PlanData) :
  noDoctorOnTwoDays planData →
  doctorsInDayRegion allDoctors planData →
  noDoctorOnTwoDays (applyMutations parseInt allDoctors planData ms)
  ∧ (addsRespectRegion parseInt allDoctors planData ms →
     doctorsInDayRegion allDoctors (applyMutations parseInt allDoctors planData ms)).
Proof.
  intros Huniq Hreg. split.
  - by apply applyMutations_unique.
  - by apply applyMutations_region.
Qed.

(** A session on the sample plan: doctor 12 joins Saturday, Sunday gets
    region 2 and doctor 10, doctor 11 leaves Saturday. *)
Lemma mutations_preserve_plan_invariants_witness :
  let ms := [AddDoctor 6 "12"; RegionChange 0 "2"; AddDoctor 0 "10";
             RemoveDoctor 6 11] in
  noDoctorOnTwoDays (applyMutations parseIntDecimal sampleDoctors samplePlan ms)
  ∧ doctorsInDayRegion sampleDoctors
      (applyMutations parseIntDecimal sampleDoctors samplePlan ms).
Proof.
  intros ms.
  destruct (mutations_preserve_plan_invariants parseIntDecimal sampleDoctors
              ms samplePlan) as [Huniq Hreg].
  - apply (bool_decide_unpack _). vm_compute. exact I.
  - apply (bool_decide_unpack _). vm_compute. exact I.
  - split; [exact Huniq|]. apply Hreg.
    apply (bool_decide_unpack _). vm_compute. exact I.
Defined.

(** C1, as stated, fails: the sample plan satisfies both invariants, and
    adding doctor 10 (region 2) to Saturday (region 1) lists a doctor under
    a day of another region. *)
Lemma add_doctor_ignores_region :
  noDoctorOnTwoDays samplePlan
  ∧ doctorsInDayRegion sampleDoctors samplePlan
  ∧ applyMutations parseIntDecimal sampleDoctors samplePlan [AddDoctor 6 "10"]
      !! 6 = Some (Some {| regionId := 1; doctorIds := [11; 10] |})
  ∧ ¬ doctorsInDayRegion sampleDoctors
        (applyMutations parseIntDecimal sampleDoctors samplePlan [AddDoctor 6 "10"]).
Proof.
  split; [|split; [|split]].
  - apply (bool_decide_unpack _). vm_compute. exact I.
  - apply (bool_decide_unpack _). vm_compute. exact I.
  - vm_compute. reflexivity.
  - intros Hreg. apply (bool_decide_pack _) in Hreg.
    vm_compute in Hreg. exact Hreg.
Qed.

(** [handleAddDoctor] returns the plan untouched when the doctor is already
    listed under some day, whichever day is the target. *)
Lemma handleAddDoctor_assigned_noop
    (parseInt : string -> option Z) (allDoctors : list Doctor)
    (planData : PlanData) (dayA dayB X : Z) (doctorIdStr : string)
    (entryA : DayPlanDetails) :
  planData !! dayA = Some (Some entryA) →
  X ∈ doctorIds entryA →
  parseInt doctorIdStr = Some X →
  handleAddDoctor parseInt allDoctors (assignedDoctorIds planData)
    dayB doctorIdStr planData = planData.
Proof.
  intros HdayA HX Hparse. unfold handleAddDoctor. rewrite Hparse.
  rewrite bool_decide_eq_true_2; [done|].
  apply elem_of_assignedDoctorIds. eauto.
Qed.

(** C6.  When doctor [X] is listed under day [dayA], [handleAddDoctor] for
    [X] on another day [dayB] changes nothing: the plan is the same, and so
    is what [dayB] holds. *)
Theorem add_assigned_doctor_to_other_day_is_noop
    (parseInt : string -> option Z) (allDoctors : list Doctor)
    (planData : PlanData) (dayA dayB X : Z) (doctorIdStr : string)
    (entryA : DayPlanDetails) :
  planData !! dayA = Some (Some entryA) →
  X ∈ doctorIds entryA →
  parseInt doctorIdStr = Some X →
  dayB ≠ dayA →
  applyMutation parseInt allDoctors planData (AddDoctor dayB doctorIdStr)
    = planData
  ∧ applyMutation parseInt allDoctors planData (AddDoctor dayB doctorIdStr)
      !! dayB = planData !! dayB.
Proof.
  intros HdayA HX Hparse _. simpl.
  rewrite (handleAddDoctor_assigned_noop _ _ _ dayA dayB X _ entryA) by done.
  done.
Qed.

(** Doctor 11 is on Saturday of the sample plan; adding it to Sunday does
    nothing. *)
Lemma add_assigned_doctor_to_other_day_is_noop_witness :
  applyMutation parseIntDecimal sampleDoctors samplePlan (AddDoctor 0 "11")
    = samplePlan
  ∧ applyMutation parseIntDecimal sampleDoctors samplePlan (AddDoctor 0 "11")
      !! 0 = samplePlan !! 0.
Proof.
  apply (add_assigned_doctor_to_other_day_is_noop parseIntDecimal
           sampleDoctors samplePlan 6 0 11 "11"
           {| regionId := 1; doctorIds := [11] |}).
  - reflexivity.
  - apply (bool_decide_unpack _). vm_compute. exact I.
  - reflexivity.
  - lia.
Defined.

(** C7.  Day [D] holds region [R1] with the doctors [l].  Choosing another
    region [R2] leaves [D] with region [R2] and no doctor; choosing [R1]
    again leaves the plan as it is; choosing none stores the explicit null
    marker. *)
Theorem region_change_clears_or_keeps_doctors
    (parseInt : string -> option Z) (planData : PlanData)
    (D R1 R2 : Z) (l : list Z) (otherRegionStr sameRegionStr : string) :
  parseInt "none" = None →
  planData !! D = Some (Some {| regionId := R1; doctorIds := l |}) →
  parseInt otherRegionStr = Some R2 →
  R2 ≠ R1 →
  parseInt sameRegionStr = Some R1 →
  handleRegionChange parseInt D otherRegionStr planData !! D
    = Some (Some {| regionId := R2; doctorIds := [] |})
  ∧ handleRegionChange parseInt D sameRegionStr planData = planData
  ∧ handleRegionChange parseInt D "none" planData !! D = Some None.
Proof.
  intros Hnone HD Hother Hne Hsame. unfold handleRegionChange.
  split; [|split].
  - rewrite bool_decide_eq_false_2 by congruence.
    rewrite Hother, HD. simpl.
    destruct (Z.eqb_spec R1 R2) as [|_]; [congruence|].
    by rewrite lookup_insert_eq.
  - rewrite bool_decide_eq_false_2 by congruence.
    rewrite Hsame, HD. simpl. rewrite Z.eqb_refl.
    by apply insert_id.
  - rewrite bool_decide_eq_true_2 by done.
    by rewrite lookup_insert_eq.
Qed.

(** On the sample plan, Saturday holds region 1 with doctor 11. *)
Lemma region_change_clears_or_keeps_doctors_witness :
  handleRegionChange parseIntDecimal 6 "2" samplePlan !! 6
    = Some (Some {| regionId := 2; doctorIds := [] |})
  ∧ handleRegionChange parseIntDecimal 6 "1" samplePlan = samplePlan
  ∧ handleRegionChange parseIntDecimal 6 "none" samplePlan !! 6 = Some None.
Proof.
  apply (region_change_clears_or_keeps_doctors parseIntDecimal samplePlan
           6 1 2 [11] "2" "1").
  - reflexivity.
  - reflexivity.
  - reflexivity.
  - lia.
  - reflexivity.
Defined.

Lemma count_occ_filter_other (X y : Z) (l : list Z) :
  y ≠ X →
  count_occ Z.eq_dec (filter (fun i => i ≠ X) l) y = count_occ Z.eq_dec l y.
Proof.
  intros Hy. induction l as [|a l IH]; [done|].
  rewrite filter_cons. destruct (decide (a ≠ X)) as [Ha|Ha]; simpl.
  - by rewrite IH.
  - destruct (Z.eq_dec a y) as [->|_]; [|done].
    by destruct Ha.
Qed.

Lemma filter_absent (X : Z) (l : list Z) :
  X ∉ l → filter (fun i => i ≠ X) l = l.
Proof.
  induction l as [|a l IH]; intros Habs; [done|].
  apply not_elem_of_cons in Habs as [Hne Habs].
  rewrite filter_cons, decide_True by congruence.
  by rewrite IH.
Qed.

(** C10.  [handleRemoveDoctor day X] leaves every other day as it is.  On a
    day that has an assignment it keeps the region, and the new list no
    longer holds [X], is a sublist of the old one (so the order of the
    others stands) and holds every other id as often as before; when [X]
    was not listed, and on a day without an assignment, the plan is
    unchanged. *)
Theorem remove_doctor_frame (planData : PlanData) (day X : Z) :
  (∀ j, j ≠ day → handleRemoveDoctor day X planData !! j = planData !! j)
  ∧ match planData !! day with
    | Some (Some entry) =>
        ∃ remaining,
          handleRemoveDoctor day X planData !! day
            = Some (Some {| regionId := regionId entry;
                            doctorIds := remaining |})
          ∧ (X ∉ remaining)
          ∧ sublist remaining (doctorIds entry)
          ∧ (∀ y, y ≠ X →
               count_occ Z.eq_dec remaining y
                 = count_occ Z.eq_dec (doctorIds entry) y)
          ∧ (X ∉ doctorIds entry → handleRemoveDoctor day X planData = planData)
    | _ => handleRemoveDoctor day X planData = planData
    end.
Proof.
  unfold handleRemoveDoctor. split.
  - intros j Hj.
    destruct (planData !! day) as [[entry|]|]; [|done..].
    by rewrite lookup_insert_ne.
  - destruct (planData !! day) as [[entry|]|] eqn:Hday; [|done..].
    exists (filter (fun i => i ≠ X) (doctorIds entry)).
    split; [by rewrite lookup_insert_eq|].
    split; [rewrite list_elem_of_filter; tauto|].
    split; [apply sublist_filter|].
    split; [intros y Hy; by apply count_occ_filter_other|].
    intros Habs. rewrite filter_absent by done.
    apply insert_id. rewrite Hday. by destruct entry.
Qed.

(** ** Dates *)

Lemma yearOfCycleOf_range (dayOfCycle : Z) :
  0 ≤ dayOfCycle < 146097 →
  0 ≤ yearOfCycleOf dayOfCycle ≤ 399
  ∧ 0 ≤ dayOfCycle - yearStart (yearOfCycleOf dayOfCycle) ≤ 365.
Proof.
  unfold yearOfCycleOf, yearStart. intros. Z.div_mod_to_equations. lia.
Qed.

(** The days from the first of a year up to a day of it are in that year. *)
Lemma yearOfCycleOf_same (dayOfCycle earlier : Z) :
  0 ≤ dayOfCycle < 146097 →
  yearStart (yearOfCycleOf dayOfCycle) ≤ earlier ≤ dayOfCycle →
  yearOfCycleOf earlier = yearOfCycleOf dayOfCycle.
Proof.
  unfold yearOfCycleOf, yearStart. intros. Z.div_mod_to_equations. lia.
Qed.

Lemma marchMonthOf_range (dayOfYear : Z) :
  0 ≤ dayOfYear ≤ 365 →
  0 ≤ marchMonthOf dayOfYear ≤ 11
  ∧ 0 ≤ monthStart (marchMonthOf dayOfYear) ≤ dayOfYear.
Proof.
  unfold marchMonthOf, monthStart. intros. Z.div_mod_to_equations. lia.
Qed.

Lemma marchMonthOf_monthStart (marchMonth : Z) :
  0 ≤ marchMonth ≤ 11 → marchMonthOf (monthStart marchMonth) = marchMonth.
Proof.
  unfold marchMonthOf, monthStart. intros. Z.div_mod_to_equations. lia.
Qed.

Lemma daysFromCivil_first (year month dayOfMonth : Z) :
  daysFromCivil year month 1
  = daysFromCivil year month dayOfMonth - (dayOfMonth - 1).
Proof. unfold daysFromCivil. cbv zeta. ring. Qed.

(** The two conversions agree on every day, and on the first day of its
    month. *)
Lemma civilFromDays_spec (dayNumber : Z) :
  let '(year, month, dayOfMonth) := civilFromDays dayNumber in
  1 ≤ month ≤ 12 ∧ 1 ≤ dayOfMonth
  ∧ daysFromCivil year month dayOfMonth = dayNumber
  ∧ civilFromDays (daysFromCivil year month 1) = (year, month, 1).
Proof.
  unfold civilFromDays at 1. cbv zeta.
  set (cycle := (dayNumber + 719468) / 146097).
  set (dayOfCycle := (dayNumber + 719468) mod 146097).
  assert (0 ≤ dayOfCycle < 146097) as Hdoc by (apply Z.mod_pos_bound; lia).
  assert (dayNumber = cycle * 146097 + dayOfCycle - 719468) as HdayNumber.
  { pose proof (Z.div_mod (dayNumber + 719468) 146097 ltac:(lia)).
    unfold cycle, dayOfCycle. lia. }
  destruct (yearOfCycleOf_range dayOfCycle Hdoc) as [Hyear Hdoy].
  set (yearOfCycle := yearOfCycleOf dayOfCycle) in *.
  set (dayOfYear := dayOfCycle - yearStart yearOfCycle) in *.
  destruct (marchMonthOf_range dayOfYear Hdoy) as [Hmonth Hstart].
  set (marchMonth := marchMonthOf dayOfYear) in *.
  set (month := if marchMonth <? 10 then marchMonth + 3 else marchMonth - 9).
  set (year := yearOfCycle + cycle * 400 + (if month <=? 2 then 1 else 0)).
  assert (1 ≤ month ≤ 12) as Hm.
  { unfold month. destruct (Z.ltb_spec marchMonth 10); lia. }
  assert ((if month <=? 2 then month + 9 else month - 3) = marchMonth) as Hback.
  { unfold month. destruct (Z.ltb_spec marchMonth 10).
    - destruct (Z.leb_spec (marchMonth + 3) 2); lia.
    - destruct (Z.leb_spec (marchMonth - 9) 2); lia. }
  assert ((if month <=? 2 then year - 1 else year) = yearOfCycle + cycle * 400)
    as HmarchYear.
  { unfold year. destruct (month <=? 2); lia. }
  assert (∀ d, daysFromCivil year month d
               = cycle * 146097 + yearStart yearOfCycle
                 + (monthStart marchMonth + d - 1) - 719468) as Hdays.
  { intros d. unfold daysFromCivil. cbv zeta.
    rewrite HmarchYear, Hback, Z.div_add, Z_mod_plus_full by lia.
    rewrite Z.div_small, Z.mod_small by lia. lia. }
  split; [done|]. split; [lia|]. split.
  - rewrite Hdays. unfold dayOfYear in *. lia.
  - rewrite Hdays. unfold civilFromDays. cbv zeta.
    replace (cycle * 146097 + yearStart yearOfCycle
             + (monthStart marchMonth + 1 - 1) - 719468 + 719468)
      with (yearStart yearOfCycle + monthStart marchMonth + cycle * 146097)
      by lia.
    rewrite Z.div_add, Z_mod_plus_full by lia.
    assert (yearStart yearOfCycle ≤ yearStart yearOfCycle + monthStart marchMonth
            ≤ dayOfCycle) as Hearlier by (unfold dayOfYear in *; lia).
    assert (0 ≤ yearStart yearOfCycle).
    { unfold yearStart. Z.div_mod_to_equations. lia. }
    rewrite Z.div_small, Z.mod_small by lia.
    rewrite (yearOfCycleOf_same dayOfCycle) by done.
    fold yearOfCycle.
    replace (yearStart yearOfCycle + monthStart marchMonth
             - yearStart yearOfCycle) with (monthStart marchMonth) by lia.
    rewrite marchMonthOf_monthStart by done.
    fold month. fold year. f_equal. lia.
Qed.

Lemma newDateYMD_full (year monthIndex dayOfMonth : Z) :
  ¬ (0 ≤ year ≤ 99) →
  newDateYMD year monthIndex dayOfMonth
  = daysFromCivil year (monthIndex + 1) dayOfMonth * msPerDay.
Proof.
  intros Hyear. unfold newDateYMD. cbv zeta.
  destruct (Z.leb_spec 0 year), (Z.leb_spec year 99); cbn [andb];
    try reflexivity.
  lia.
Qed.

(** Outside the years 0 to 99, [startOfMonth today] is local midnight of
    day 1 of the month of [today], and it is not after [today]. *)
Lemma startOfMonth_spec (today : Date) :
  ¬ (0 ≤ getFullYear today ≤ 99) →
  startOfMonth today mod msPerDay = 0
  ∧ getFullYear (startOfMonth today) = getFullYear today
  ∧ getMonth (startOfMonth today) = getMonth today
  ∧ getDate (startOfMonth today) = 1
  ∧ localDay (startOfMonth today) = localDay today - (getDate today - 1)
  ∧ startOfMonth today ≤ today.
Proof.
  intros Hyear.
  assert (startOfMonth today
          = daysFromCivil (getFullYear today) (getMonth today + 1) 1
            * msPerDay) as Hfull
    by (unfold startOfMonth; by apply newDateYMD_full).
  clear Hyear. revert Hfull.
  unfold getFullYear, getMonth, getDate. intros Hfull.
  assert (localDay (startOfMonth today)
          = daysFromCivil (civilFromDays (localDay today)).1.1
                          (civilFromDays (localDay today)).1.2 1) as Hday.
  { rewrite Hfull. unfold localDay at 1.
    replace ((civilFromDays (localDay today)).1.2 - 1 + 1)
      with ((civilFromDays (localDay today)).1.2) by lia.
    apply Z.div_mul. unfold msPerDay. lia. }
  rewrite Hday.
  pose proof (civilFromDays_spec (localDay today)) as Hspec.
  destruct (civilFromDays (localDay today)) as [[year month] dayOfMonth].
  cbn [fst snd] in *. destruct Hspec as (Hmonth & Hdom & Hdays & Hfirst).
  rewrite Hfirst. cbn [fst snd].
  rewrite (daysFromCivil_first year month dayOfMonth), Hdays.
  assert (startOfMonth today
          = (localDay today - (dayOfMonth - 1)) * msPerDay) as Hstart.
  { rewrite <- Hdays at 1. rewrite <- daysFromCivil_first, <- Hday.
    rewrite Hfull. unfold localDay.
    rewrite Z.div_mul by (unfold msPerDay; lia). done. }
  split; [rewrite Hstart; apply Z_mod_mult|].
  repeat split; try done.
  rewrite Hstart. unfold localDay.
  pose proof (Z.mul_div_le today msPerDay ltac:(unfold msPerDay; lia)).
  unfold msPerDay in *. lia.
Qed.

(** ** Saving and fetching a plan *)

(** What the loop of [handleSave] has stored after the days [days]. *)
Lemma cleaned_fold_lookup (planData : PlanData) (days : list Z)
    (cleaned : PlanData) (i : Z) :
  foldl
    (fun (acc : PlanData) (dayIndex : Z) =>
       match planData !! dayIndex with
       | Some (Some dayPlan) => <[dayIndex := Some dayPlan]> acc
       | _ => <[dayIndex := None]> acc
       end) cleaned days !! i
  = if decide (i ∈ days) then Some (default None (planData !! i))
    else cleaned !! i.
Proof.
  revert cleaned. induction days as [|d days IH]; intros cleaned; cbn [foldl].
  - rewrite decide_False; [done|]. apply not_elem_of_nil.
  - rewrite IH. destruct (decide (i ∈ days)) as [Hin|Hout].
    + rewrite decide_True; [done|]. by right.
    + destruct (decide (i = d)) as [->|Hne].
      * rewrite decide_True by left.
        destruct (planData !! d) as [[dayPlan|]|]; by rewrite lookup_insert_eq.
      * rewrite decide_False by (rewrite elem_of_cons; tauto).
        destruct (planData !! d) as [[dayPlan|]|]; by rewrite lookup_insert_ne.
Qed.

Lemma cleanedPlan_lookup (planData : PlanData) (i : Z) :
  cleanedPlan planData !! i
  = if decide (i ∈ WORK_WEEK_DAYS) then Some (default None (planData !! i))
    else None.
Proof. unfold cleanedPlan. by rewrite cleaned_fold_lookup, lookup_empty. Qed.

Lemma elem_of_WORK_WEEK_DAYS (i : Z) : i ∈ WORK_WEEK_DAYS ↔ 0 ≤ i ≤ 6.
Proof.
  unfold WORK_WEEK_DAYS. rewrite !elem_of_cons, elem_of_nil. lia.
Qed.

(** C5.  Whatever the store held, [handleSave] leaves under the
    representative's id the cleaned plan with status [pending].  The cleaned
    plan has exactly the seven keys 0 to 6; a day with an assignment keeps
    it and every other day holds the explicit null. *)
Theorem save_persists_normalized_pending_plan
    (u : User) (planData : PlanData) (be : Backend) :
  let cleaned := cleanedPlan planData in
  weekly_plans (handleSave u planData be).1 !! user_id u
    = Some {| plan := cleaned; status := pending |}
  ∧ (handleSave u planData be).2 = Some {| plan := cleaned; status := pending |}
  ∧ (∀ i, is_Some (cleaned !! i) ↔ 0 ≤ i ≤ 6)
  ∧ (∀ i, 0 ≤ i ≤ 6 →
       cleaned !! i
       = Some (match planData !! i with
               | Some (Some dayPlan) => Some dayPlan
               | _ => None
               end)).
Proof.
  intros cleaned. split; [|split; [|split]].
  - unfold handleSave, updateRepPlan. simpl. by rewrite lookup_insert_eq.
  - done.
  - intros i. unfold cleaned. rewrite cleanedPlan_lookup.
    rewrite <- elem_of_WORK_WEEK_DAYS.
    destruct (decide (i ∈ WORK_WEEK_DAYS)) as [Hin|Hout].
    + split; [done|]. intros _. eauto.
    + split; [|done]. by intros [? ?].
  - intros i Hi. unfold cleaned. rewrite cleanedPlan_lookup.
    rewrite decide_True by (by apply elem_of_WORK_WEEK_DAYS).
    by destruct (planData !! i) as [[dayPlan|]|].
Qed.

(** C9.  When the table has no row for the representative, [api.getRepPlan]
    returns the draft with the empty plan, and the table is unchanged. *)
Theorem get_plan_without_record_is_empty_draft (be : Backend) (repId : string) :
  weekly_plans be !! repId = None →
  (getRepPlan be repId).2 = Returned {| plan := ∅; status := draft |}
  ∧ weekly_plans (getRepPlan be repId).1 = weekly_plans be.
Proof.
  intros Hnone. unfold getRepPlan. simpl. by rewrite Hnone.
Qed.

(** The empty store has no row for [rep-1]. *)
Lemma get_plan_without_record_is_empty_draft_witness :
  (getRepPlan {| weekly_plans := ∅; requests := [] |} "rep-1").2
    = Returned {| plan := ∅; status := draft |}
  ∧ weekly_plans (getRepPlan {| weekly_plans := ∅; requests := [] |} "rep-1").1
    = ∅.
Proof.
  apply (get_plan_without_record_is_empty_draft
           {| weekly_plans := ∅; requests := [] |} "rep-1").
  reflexivity.
Defined.

(** ** The planning window *)

Lemma getDay_range (d : Date) : 0 ≤ getDay d < 7.
Proof. unfold getDay. apply Z.mod_pos_bound. lia. Qed.

Lemma localDay_addDays (d : Date) (n : Z) :
  localDay (addDays d n) = localDay d + n.
Proof.
  unfold localDay, addDays, msPerDay. by rewrite Z.div_add by lia.
Qed.

Lemma getDay_addDays (d : Date) (n : Z) :
  getDay (addDays d n) = (getDay d + n) mod 7.
Proof.
  unfold getDay. rewrite localDay_addDays.
  rewrite Zplus_mod_idemp_l. f_equal. lia.
Qed.

(** C3.  Planning time is Thursday (4) or Friday (5).  In planning time the
    plan week starts on the first Saturday after today; otherwise on the
    last Saturday up to today, which is today itself on a Saturday. *)
Theorem planning_window_and_week_start (now : Date) :
  let start := planStartDate (isPlanningTime now) now in
  (isPlanningTime now = true ↔ getDay now = 4 ∨ getDay now = 5)
  ∧ getDay start = 6
  ∧ (isPlanningTime now = true →
       localDay now < localDay start
       ∧ ∀ d : Date, localDay now < localDay d < localDay start → getDay d ≠ 6)
  ∧ (isPlanningTime now = false →
       localDay start ≤ localDay now
       ∧ ∀ d : Date, localDay start < localDay d ≤ localDay now → getDay d ≠ 6)
  ∧ (getDay now = 6 → isPlanningTime now = false ∧ start = now).
Proof.
  intros start.
  assert (isPlanningTime now = true ↔ getDay now = 4 ∨ getDay now = 5) as Hwin.
  { unfold isPlanningTime. rewrite orb_true_iff, !Z.eqb_eq. done. }
  pose proof (getDay_range now) as Hrange.
  assert (∀ d : Date, getDay d = (getDay now + (localDay d - localDay now)) mod 7)
    as Hshift.
  { intros d. unfold getDay. rewrite Zplus_mod_idemp_l. f_equal. lia. }
  split; [done|].
  destruct (isPlanningTime now) eqn:Hplanning; subst start;
    unfold planStartDate; cbv zeta.
  - assert (getDay now = 4 ∨ getDay now = 5) as Hday by (by apply Hwin).
    split; [|split; [|split]]; try done.
    + rewrite getDay_addDays.
      destruct Hday as [-> | ->]; reflexivity.
    + intros _. rewrite localDay_addDays.
      destruct Hday as [Hday | Hday]; rewrite Hday; eval_rem; simpl.
      * split; [lia|]. intros d Hd. rewrite (Hshift d), Hday.
        assert (localDay d - localDay now = 1) as -> by lia. done.
      * split; [lia|]. intros d Hd. lia.
    + intros Hsat. lia.
  - assert (¬ (getDay now = 4 ∨ getDay now = 5)) as Hday.
    { intros H. apply Hwin in H. done. }
    assert (getDay now = 0 ∨ getDay now = 1 ∨ getDay now = 2
            ∨ getDay now = 3 ∨ getDay now = 6) as Hcases by lia.
    split; [|split; [|split]]; try done.
    + rewrite getDay_addDays.
      destruct Hcases as [-> | [-> | [-> | [-> | ->]]]]; reflexivity.
    + intros _. rewrite localDay_addDays.
      assert (∀ k, 0 ≤ k → k < 7 → getDay now = k →
                ∀ d : Date, localDay now - Z.rem (k + 1) 7 < localDay d ≤ localDay now
                  → getDay d ≠ 6) as Hnone.
      { intros k Hk0 Hk7 Hk d Hd. rewrite (Hshift d), Hk.
        assert (k = 0 ∨ k = 1 ∨ k = 2 ∨ k = 3 ∨ k = 4 ∨ k = 5 ∨ k = 6)
          as Hks by lia.
        destruct Hks as [-> | [-> | [-> | [-> | [-> | [-> | ->]]]]]];
          eval_rem;
          assert (localDay d - localDay now = 0 ∨ localDay d - localDay now = -1
                  ∨ localDay d - localDay now = -2
                  ∨ localDay d - localDay now = -3
                  ∨ localDay d - localDay now = -4
                  ∨ localDay d - localDay now = -5) as Hdiff by lia;
          destruct Hdiff as [Hdiff | [Hdiff | [Hdiff | [Hdiff | [Hdiff | Hdiff]]]]];
          rewrite Hdiff; solve [done | lia]. }
      destruct Hcases as [Hk | [Hk | [Hk | [Hk | Hk]]]]; rewrite Hk;
        (split; [eval_rem; lia|]);
        intros d Hd;
        match type of Hk with
        | _ = ?k => apply (Hnone k ltac:(lia) ltac:(lia) Hk d)
        end;
        eval_rem; lia.
    + intros Hsat. split; [done|].
      rewrite Hsat. unfold addDays. eval_rem. lia.
Qed.

(** C4.  The weekly-plan action opens the editor exactly when the plan is
    not approved or it is planning time; an approved plan outside planning
    time opens the read-only weekly view. *)
Theorem weekly_plan_editable_iff (p : WeeklyPlan) (now : Date) :
  (canEdit (Some p) (isPlanningTime now) = true
     ↔ status p ≠ approved ∨ isPlanningTime now = true)
  ∧ (handleWeeklyPlanClick (Some p) (isPlanningTime now) = view_plan
     ↔ status p ≠ approved ∨ isPlanningTime now = true)
  ∧ (handleWeeklyPlanClick (Some p) (isPlanningTime now) = view_weekly
     ↔ status p = approved ∧ isPlanningTime now = false).
Proof.
  unfold handleWeeklyPlanClick, canEdit.
  destruct (isPlanningTime now), (status p); vm_compute;
    intuition congruence.
Qed.


(** ** Monthly visit frequency *)

Section VisitFrequencyProperties.

Variable newDate : string -> option Date.
Variable today : Date.

Lemma countedTargets_snoc (visits : list VisitReport) (v : VisitReport) :
  countedTargets newDate today (visits ++ [v])
  = countedTargets newDate today visits
    ++ (if countedThisMonth newDate today v then [targetName v] else []).
Proof.
  unfold countedTargets. rewrite filter_app, fmap_app. f_equal.
  rewrite filter_cons, filter_nil.
  destruct (countedThisMonth newDate today v).
  - by rewrite decide_True.
  - by rewrite decide_False.
Qed.

Lemma visitCounts_snoc (visits : list VisitReport) (v : VisitReport) :
  visitCounts newDate today (visits ++ [v])
  = countVisit newDate today (visitCounts newDate today visits) v.
Proof. unfold visitCounts. by rewrite foldl_app. Qed.

(** What the count table holds under a name after the loop: nothing for a
    name without counted visit and for [__proto__], a text for the other
    inherited names, the number of counted visits for every other name. *)
Lemma visitCounts_lookup (visits : list VisitReport) (n : string) :
  visitCounts newDate today visits !! n
  = if decide (timesVisited newDate today visits n = 0 ∨ n = "__proto__")
    then None
    else Some (countValueOf newDate today visits n).
Proof.
  unfold timesVisited, countValueOf, timesVisited.
  induction visits as [|v visits IH] using rev_ind.
  - unfold visitCounts. cbn [foldl]. rewrite lookup_empty.
    rewrite decide_True; [reflexivity|]. by left.
  - rewrite visitCounts_snoc, countedTargets_snoc. unfold countVisit.
    destruct (countedThisMonth newDate today v).
    2:{ rewrite app_nil_r. exact IH. }
    cbv zeta. rewrite count_occ_app.
    set (c := count_occ string_dec (countedTargets newDate today visits) n)
      in *.
    destruct (decide (targetName v = n)) as [Hkey|Hkey].
    + rewrite Hkey. rewrite (count_occ_cons_eq string_dec [] (eq_refl n)).
      cbn [count_occ]. rewrite IH.
      case_bool_decide as Hproto.
      { rewrite IH. rewrite !decide_True by (by right). reflexivity. }
      rewrite lookup_insert_eq.
      rewrite (decide_False (P := Z.of_nat (c + 1) = 0 ∨ n = "__proto__"))
        by (intros [?|?]; [lia|done]).
      f_equal.
      destruct (decide (Z.of_nat c = 0 ∨ n = "__proto__")) as [[Hc|?]|Hc];
        [|done|].
      * assert (c = 0%nat) as -> by lia.
        case_bool_decide; [by rewrite decide_True|by rewrite decide_False].
      * destruct (decide (n ∈ objectPrototypeKeys)).
        -- f_equal. lia.
        -- f_equal. lia.
    + rewrite (count_occ_cons_neq string_dec [] Hkey). cbn [count_occ].
      rewrite Nat.add_0_r.
      case_bool_decide; [exact IH|].
      rewrite lookup_insert_ne by exact Hkey. exact IH.
Qed.

Lemma timesVisited_pos (visits : list VisitReport) (n : string) :
  n ∈ countedTargets newDate today visits
  ↔ timesVisited newDate today visits n ≠ 0.
Proof.
  unfold timesVisited.
  rewrite list_elem_of_In, (count_occ_In string_dec). lia.
Qed.

(** The entries of the count table are the distinct counted targets other
    than [__proto__], each with its value. *)
Lemma visitCounts_entries (visits : list VisitReport) :
  map_to_list (visitCounts newDate today visits)
  ≡ₚ (fun n => (n, countValueOf newDate today visits n))
       <$> filter (fun n => n ≠ "__proto__")
             (remove_dups (countedTargets newDate today visits)).
Proof.
  apply NoDup_Permutation.
  - apply NoDup_map_to_list.
  - apply NoDup_fmap_2_strong; [|apply NoDup_filter, NoDup_remove_dups].
    intros x y _ _ Hxy. by injection Hxy.
  - intros [n c]. rewrite elem_of_map_to_list, visitCounts_lookup.
    rewrite list_elem_of_fmap. split.
    + destruct (decide (timesVisited newDate today visits n = 0
                        ∨ n = "__proto__")) as [|Hnz]; [done|].
      intros [= <-]. exists n. split; [done|].
      apply list_elem_of_filter. split; [tauto|].
      apply elem_of_remove_dups, timesVisited_pos. tauto.
    + intros (n' & [= -> ->] & Hin).
      apply list_elem_of_filter in Hin as [Hproto Hin].
      apply elem_of_remove_dups, timesVisited_pos in Hin.
      rewrite decide_False; [done|]. tauto.
Qed.

Lemma length_filter_fmap {A B} (f : A → B) (P : B → Prop)
    `{!∀ b, Decision (P b)} (l : list A) :
  length (filter P (f <$> l)) = length (filter (fun a => P (f a)) l).
Proof.
  induction l as [|a l IH]; [done|].
  rewrite fmap_cons, !filter_cons.
  destruct (decide (P (f a))); simpl; by rewrite IH.
Qed.

(** The frequency loop adds, bucket by bucket, the number of entries that
    hold a number falling in the bucket. *)
Lemma bucket_fold (entries : list (string * CountValue)) (f : Frequency) :
  foldr (uncurry (fun (_ : string) count acc => bucket count acc)) f entries
  = {| freq1 := freq1 f
         + Z.of_nat (length (filter (fun e => numberIn (fun c => c = 1) e.2)
                               entries));
       freq2 := freq2 f
         + Z.of_nat (length (filter (fun e => numberIn (fun c => c = 2) e.2)
                               entries));
       freq3 := freq3 f
         + Z.of_nat (length (filter (fun e => numberIn (fun c => 3 ≤ c) e.2)
                               entries)) |}.
Proof.
  induction entries as [|[n [c|ones]] entries IH]; cbn [foldr uncurry].
  - destruct f. rewrite !filter_nil. cbn [length freq1 freq2 freq3].
    f_equal; lia.
  - rewrite IH. rewrite !filter_cons. unfold bucket. cbn [snd numberIn].
    cbn [freq1 freq2 freq3].
    destruct (Z.eqb_spec c 1) as [->|H1].
    { rewrite decide_True, decide_False, decide_False by lia.
      cbn [length freq1 freq2 freq3]. f_equal; lia. }
    destruct (Z.eqb_spec c 2) as [->|H2].
    { rewrite decide_False, decide_True, decide_False by lia.
      cbn [length freq1 freq2 freq3]. f_equal; lia. }
    destruct (Z.leb_spec 3 c) as [H3|H3].
    + rewrite decide_False, decide_False, decide_True by lia.
      cbn [length freq1 freq2 freq3]. f_equal; lia.
    + rewrite decide_False, decide_False, decide_False by lia.
      cbn [freq1 freq2 freq3]. reflexivity.
  - rewrite IH. rewrite !filter_cons. unfold bucket. cbn [snd numberIn].
    rewrite !decide_False by tauto. reflexivity.
Qed.

Lemma numberIn_inherited (visits : list VisitReport) (P : Z → Prop)
    (n : string) :
  n ∈ objectPrototypeKeys →
  ¬ numberIn P (countValueOf newDate today visits n).
Proof.
  intros Hin. unfold countValueOf. rewrite decide_True by exact Hin.
  cbn [numberIn]. tauto.
Qed.

Lemma numberIn_plain (visits : list VisitReport) (P : Z → Prop) (n : string) :
  n ∉ objectPrototypeKeys →
  numberIn P (countValueOf newDate today visits n)
  ↔ P (timesVisited newDate today visits n).
Proof.
  intros Hout. unfold countValueOf. rewrite decide_False by exact Hout.
  reflexivity.
Qed.

(** Among the entries, those holding a number in [P] are the plainly named
    targets with a number of visits in [P]. *)
Lemma plain_entries (visits : list VisitReport) (P : Z → Prop)
    `{!∀ c, Decision (P c)} (targets : list string) :
  length (filter (fun n => numberIn P (countValueOf newDate today visits n))
                 (filter (fun n => n ≠ "__proto__") targets))
  = length (filter (fun n => P (timesVisited newDate today visits n))
                   (filter (fun n => n ∉ objectPrototypeKeys) targets)).
Proof.
  induction targets as [|n targets IH]; [reflexivity|].
  rewrite !(filter_cons _ n targets).
  destruct (decide (n ∈ objectPrototypeKeys)) as [Hin|Hout].
  - rewrite (decide_False (P := n ∉ objectPrototypeKeys)) by tauto.
    destruct (decide (n ≠ "__proto__")); [|exact IH].
    rewrite filter_cons.
    rewrite decide_False by (by apply numberIn_inherited).
    exact IH.
  - rewrite (decide_True (P := n ∉ objectPrototypeKeys)) by exact Hout.
    rewrite (decide_True (P := n ≠ "__proto__")).
    2:{ intros ->. apply Hout. apply (bool_decide_unpack _). reflexivity. }
    rewrite !filter_cons.
    destruct (decide (P (timesVisited newDate today visits n))) as [HP|HP].
    + rewrite decide_True by (by apply numberIn_plain).
      cbn [length]. by rewrite IH.
    + rewrite decide_False by (by rewrite numberIn_plain).
      exact IH.
Qed.

Lemma count_entries (visits : list VisitReport) (P : Z → Prop)
    `{!∀ c, Decision (P c)} :
  Z.of_nat (length (filter (fun e : string * CountValue => numberIn P e.2)
                      (map_to_list (visitCounts newDate today visits))))
  = plainTargetsVisited newDate today visits P.
Proof.
  unfold plainTargetsVisited, plainTargets. f_equal.
  rewrite (visitCounts_entries visits).
  rewrite (length_filter_fmap
             (fun n => (n, countValueOf newDate today visits n))
             (fun e => numberIn P e.2)).
  exact (plain_entries visits P _).
Qed.

(** The buckets count the plainly named targets. *)
Lemma visitFrequency_counts (visits : list VisitReport) :
  visitFrequency newDate today visits
  = {| freq1 := plainTargetsVisited newDate today visits (fun c => c = 1);
       freq2 := plainTargetsVisited newDate today visits (fun c => c = 2);
       freq3 := plainTargetsVisited newDate today visits (fun c => 3 ≤ c) |}.
Proof.
  unfold visitFrequency. rewrite map_fold_foldr, bucket_fold.
  cbn [freq1 freq2 freq3]. rewrite !Z.add_0_l.
  f_equal.
  - exact (count_entries visits (fun c => c = 1)).
  - exact (count_entries visits (fun c => c = 2)).
  - exact (count_entries visits (fun c => 3 ≤ c)).
Qed.

Lemma filter_all {A} (P : A → Prop) `{!∀ a, Decision (P a)} (l : list A) :
  Forall P l → filter P l = l.
Proof.
  induction 1 as [|a l Ha Hl IH]; [reflexivity|].
  rewrite filter_cons, decide_True by exact Ha. by rewrite IH.
Qed.

(** When no counted target bears an inherited name, every distinct counted
    target is plainly named. *)
Lemma plainTargetsVisited_all (visits : list VisitReport) (P : Z → Prop)
    `{!∀ c, Decision (P c)} :
  Forall (fun n => n ∉ objectPrototypeKeys)
         (countedTargets newDate today visits) →
  plainTargetsVisited newDate today visits P
  = targetsVisited newDate today visits P.
Proof.
  intros Hplain. unfold plainTargetsVisited, plainTargets, targetsVisited.
  do 3 f_equal. apply filter_all.
  rewrite Forall_forall in Hplain |- *.
  intros n Hn. by apply Hplain, elem_of_remove_dups.
Qed.

End VisitFrequencyProperties.

(** C8.  The frequency leaves out a doctor who is named like a member that
    every object inherits.  One doctor visit of this month to a doctor
    named [constructor] is one counted visit to one distinct target, so
    one target is visited exactly once; the computation returns 0 in every
    bucket.  Beside the sample visits, which fill each bucket with one
    doctor, the same visit changes nothing. *)
Theorem frequency_leaves_out_inherited_names :
  let visit := sampleVisit DOCTOR_VISIT "constructor" "2026-11-02" in
  countedTargets parseIsoDay sampleToday [visit] = ["constructor"]
  ∧ targetsVisited parseIsoDay sampleToday [visit] (fun c => c = 1) = 1
  ∧ visitFrequency parseIsoDay sampleToday [visit]
    = {| freq1 := 0; freq2 := 0; freq3 := 0 |}
  ∧ visitFrequency parseIsoDay sampleToday sampleVisits
    = {| freq1 := 1; freq2 := 1; freq3 := 1 |}
  ∧ visitFrequency parseIsoDay sampleToday (visit :: sampleVisits)
    = {| freq1 := 1; freq2 := 1; freq3 := 1 |}.
Proof.
  cbv zeta. rewrite !visitFrequency_counts.
  repeat split; vm_compute; reflexivity.
Qed.

(** ** The plan lifecycle on the manager dashboard *)

Lemma elem_of_pendingPlans (plans : gmap string WeeklyPlan)
    (repId : string) (p : WeeklyPlan) :
  (repId, p) ∈ pendingPlans plans
  ↔ plans !! repId = Some p ∧ status p = pending.
Proof.
  unfold pendingPlans.
  rewrite list_elem_of_filter, elem_of_map_to_list. simpl. tauto.
Qed.

Lemma dashboardFor_manager (u : User) :
  dashboardFor u = ManagerDashboard ↔ role u = Manager ∨ role u = Supervisor.
Proof. unfold dashboardFor. destruct (role u); vm_compute; intuition congruence. Qed.

(** C2, as amended.  A revoke attempted by anyone but a manager leaves the
    dashboard's plans and the store as they are, sends no request and shows
    the permission-denied message.  For the other combinations outside the
    table the dashboard shows no control: approve and reject stand only on
    pending plans, revoke only before a manager on an approved plan, and
    only managers and supervisors get this dashboard. *)
Theorem unlisted_transitions_are_gated
    (t : string -> list string -> string)
    (st : ManagerState) (be : Backend) (repId : string) :
  (role <$> user st ≠ Some Manager →
     handleRevokeApproval t repId st be
     = (setReviewMessage st
          {| text := t "error_permission_denied" [];
             message_type := failure |},
        be))
  ∧ (∀ (currentUser : User) (trigger : Trigger),
       offersControl currentUser (allPlans st) repId trigger →
       ∃ p, allPlans st !! repId = Some p
            ∧ is_Some (listedTransition (status p) (role currentUser) trigger)).
Proof.
  split.
  - intros Hrole. unfold handleRevokeApproval.
    by rewrite bool_decide_eq_true_2.
  - intros currentUser trigger [Hdash Hcontrol].
    apply dashboardFor_manager in Hdash.
    destruct trigger; simpl in Hcontrol.
    + done.
    + destruct Hcontrol as [p Hp]. apply elem_of_pendingPlans in Hp as [Hp Hs].
      exists p. split; [done|]. rewrite Hs.
      destruct Hdash as [-> | ->]; simpl; eauto.
    + destruct Hcontrol as [p Hp]. apply elem_of_pendingPlans in Hp as [Hp Hs].
      exists p. split; [done|]. rewrite Hs.
      destruct Hdash as [-> | ->]; simpl; eauto.
    + destruct Hcontrol as (p & Hp & Hshow). exists p. split; [done|].
      unfold showsRevokeButton in Hshow.
      apply andb_true_iff in Hshow as [Hmgr Happroved].
      apply bool_decide_eq_true in Hmgr, Happroved.
      simpl in Hmgr. injection Hmgr as ->. rewrite Happroved. simpl. eauto.
Qed.

(** C2, as stated, fails: approving a plan that is a draft is outside the
    table, yet [handleReviewPlan] sends the update, the stored status
    becomes [approved] and the dashboard reports success. *)
Lemma review_of_draft_plan_is_persisted :
  let before := sampleBackend in
  let after :=
    handleReviewPlan showKey "rep-1" review_approved
      (sampleManagerState sampleManager) before in
  status <$> weekly_plans before !! "rep-1" = Some draft
  ∧ listedTransition draft Manager approves = None
  ∧ status <$> weekly_plans after.2 !! "rep-1" = Some approved
  ∧ requests after.2 = [UpdateStatus "rep-1" approved]
  ∧ reviewMessage after.1
    = Some {| text := "plan_approved_success"; message_type := success |}.
Proof. vm_compute. repeat split; reflexivity. Qed.

(** A supervisor who attempts a revoke on the sample store is refused. *)
Lemma unlisted_transitions_are_gated_witness :
  handleRevokeApproval showKey "rep-1"
    (sampleManagerState sampleSupervisor) sampleBackend
  = (setReviewMessage (sampleManagerState sampleSupervisor)
       {| text := "error_permission_denied"; message_type := failure |},
     sampleBackend).
Proof.
  apply (proj1 (unlisted_transitions_are_gated showKey
                  (sampleManagerState sampleSupervisor) sampleBackend "rep-1")).
  discriminate.
Defined.

(** ** Worked examples *)

(** On Tuesday 3 November 2026 the plan week is the one that started on
    Saturday 31 October; on Thursday 5 November it is the one that starts
    on Saturday 7 November. *)
Example planStartDate_on_a_tuesday :
  getDay sampleToday = 2
  ∧ civilFromDays
      (localDay (planStartDate (isPlanningTime sampleToday) sampleToday))
    = (2026, 10, 31).
Proof. vm_compute. split; reflexivity. Qed.

Example planStartDate_on_a_thursday :
  let thursday := newDateYMD 2026 10 5 in
  getDay thursday = 4
  ∧ civilFromDays
      (localDay (planStartDate (isPlanningTime thursday) thursday))
    = (2026, 11, 7).
Proof. vm_compute. split; reflexivity. Qed.

(** The month of 29 February 2024 starts on 1 February 2024. *)
Example startOfMonth_in_a_leap_year :
  civilFromDays (localDay (startOfMonth (newDateYMD 2024 1 29 + 1000)))
  = (2024, 2, 1).
Proof. vm_compute. reflexivity. Qed.

(** Saving the sample plan keeps Saturday, stores null for the six other
    days and drops nothing else in. *)
Example cleanedPlan_of_sample :
  cleanedPlan samplePlan !! 6 = Some (Some {| regionId := 1; doctorIds := [11] |})
  ∧ cleanedPlan samplePlan !! 0 = Some None
  ∧ cleanedPlan samplePlan !! 3 = Some None
  ∧ cleanedPlan samplePlan !! 7 = None.
Proof. vm_compute. repeat split; reflexivity. Qed.

(** A manager's revoke on the sample store goes through, whatever the
    status of the plan: here the plan is a draft. *)
Example manager_revoke_is_sent :
  requests (handleRevokeApproval showKey "rep-1"
              (sampleManagerState sampleManager) sampleBackend).2
  = [UpdateStatus "rep-1" draft].
Proof. vm_compute. reflexivity. Qed.

(** Removing doctor 11 from Saturday of the sample plan leaves the day in
    region 1 with no doctor. *)
Example remove_doctor_on_sample :
  handleRemoveDoctor 6 11 samplePlan !! 6
  = Some (Some {| regionId := 1; doctorIds := [] |}).
Proof. vm_compute. reflexivity. Qed.

(** * Further properties of the code *)

(** ** The plan editor *)

(** X1.  [handleRegionChange] touches only the day it is called for, and
    making the same choice a second time changes nothing more. *)
Theorem region_change_frame_and_idempotent
    (parseInt : string -> option Z) (planData : PlanData)
    (dayIndex : Z) (regionIdStr : string) :
  (∀ j, j ≠ dayIndex →
     handleRegionChange parseInt dayIndex regionIdStr planData !! j
     = planData !! j)
  ∧ handleRegionChange parseInt dayIndex regionIdStr
      (handleRegionChange parseInt dayIndex regionIdStr planData)
    = handleRegionChange parseInt dayIndex regionIdStr planData.
Proof.
  unfold handleRegionChange. split.
  - intros j Hj. case_bool_decide.
    + by rewrite lookup_insert_ne.
    + destruct (parseInt regionIdStr); by rewrite lookup_insert_ne.
  - case_bool_decide; [by rewrite insert_insert_eq|].
    destruct (parseInt regionIdStr) as [newRegionId|];
      [|by rewrite insert_insert_eq].
    cbv zeta. rewrite lookup_insert_eq. cbn [regionId doctorIds].
    by rewrite Z.eqb_refl, insert_insert_eq.
Qed.

(** X2.  What [handleAddDoctor] does, case by case.  An id that does not
    parse, and a doctor unknown to the editor on a day without assignment,
    leave the plan as it is.  Otherwise a doctor who is on no day goes to
    the end of the day's list (the region stays), or opens the day with
    the doctor's own region.  No other day changes. *)
Theorem add_doctor_outcomes
    (parseInt : string -> option Z) (allDoctors : list Doctor)
    (planData : PlanData) (dayIndex : Z) (doctorIdStr : string) :
  let after :=
    handleAddDoctor parseInt allDoctors (assignedDoctorIds planData)
      dayIndex doctorIdStr planData in
  (∀ j, j ≠ dayIndex → after !! j = planData !! j)
  ∧ match parseInt doctorIdStr with
    | None => after = planData
    | Some doctorId =>
        doctorId ∉ assignedDoctorIds planData →
        match planData !! dayIndex with
        | Some (Some entry) =>
            after !! dayIndex
            = Some (Some {| regionId := regionId entry;
                            doctorIds := doctorIds entry ++ [doctorId] |})
        | _ =>
            match find (fun d => doctor_id d =? doctorId) allDoctors with
            | Some doctor =>
                after !! dayIndex
                = Some (Some {| regionId := doctor_regionId doctor;
                                doctorIds := [doctorId] |})
            | None => after = planData
            end
        end
    end.
Proof.
  intros after. subst after. unfold handleAddDoctor. split.
  - intros j Hj. destruct (parseInt doctorIdStr) as [doctorId|]; [|done].
    case_bool_decide; [done|].
    destruct (planData !! dayIndex) as [[entry|]|].
    + case_bool_decide; [done|]. by rewrite lookup_insert_ne.
    + destruct (find _ allDoctors); [|done]. by rewrite lookup_insert_ne.
    + destruct (find _ allDoctors); [|done]. by rewrite lookup_insert_ne.
  - destruct (parseInt doctorIdStr) as [doctorId|]; [|done].
    intros Hfree. rewrite bool_decide_eq_false_2 by done.
    destruct (planData !! dayIndex) as [[entry|]|] eqn:Hday.
    + rewrite bool_decide_eq_false_2; [by rewrite lookup_insert_eq|].
      intros Hin. apply Hfree, elem_of_assignedDoctorIds. eauto.
    + destruct (find _ allDoctors); [|done]. by rewrite lookup_insert_eq.
    + destruct (find _ allDoctors); [|done]. by rewrite lookup_insert_eq.
Qed.

(** X3.  On a day that has an assignment, adding a doctor who is on no day
    and removing that doctor again gives back the plan. *)
Theorem add_then_remove_restores_plan
    (parseInt : string -> option Z) (allDoctors : list Doctor)
    (planData : PlanData) (dayIndex doctorId : Z) (doctorIdStr : string)
    (entry : DayPlanDetails) :
  planData !! dayIndex = Some (Some entry) →
  parseInt doctorIdStr = Some doctorId →
  doctorId ∉ assignedDoctorIds planData →
  handleRemoveDoctor dayIndex doctorId
    (handleAddDoctor parseInt allDoctors (assignedDoctorIds planData)
       dayIndex doctorIdStr planData)
  = planData.
Proof.
  intros Hday Hparse Hfree.
  assert (doctorId ∉ doctorIds entry) as Hout.
  { intros Hin. apply Hfree, elem_of_assignedDoctorIds. eauto. }
  unfold handleAddDoctor. rewrite Hparse, Hday.
  rewrite !bool_decide_eq_false_2 by done.
  unfold handleRemoveDoctor. rewrite lookup_insert_eq. cbn [regionId doctorIds].
  rewrite insert_insert_eq, filter_app, filter_absent by done.
  rewrite filter_cons, decide_False, filter_nil, app_nil_r by tauto.
  apply insert_id. rewrite Hday. by destruct entry.
Qed.

Lemma add_then_remove_restores_plan_witness :
  handleRemoveDoctor 6 12
    (handleAddDoctor parseIntDecimal sampleDoctors
       (assignedDoctorIds samplePlan) 6 "12" samplePlan)
  = samplePlan.
Proof.
  apply (add_then_remove_restores_plan parseIntDecimal sampleDoctors
           samplePlan 6 12 "12" {| regionId := 1; doctorIds := [11] |}).
  - reflexivity.
  - reflexivity.
  - apply (bool_decide_unpack _). vm_compute. exact I.
Defined.

(** X4.  In a plan that lists no doctor under two days, removing a doctor
    from the day that lists it leaves the doctor on no day.  Afterwards the
    doctor selector of every day of the work week that is set to the
    doctor's region is rendered and offers the doctor again, provided the
    region id is not 0; a day whose region id is 0 shows no doctor
    selector. *)
Theorem remove_doctor_frees_it
    (allDoctors : list Doctor) (planData : PlanData) (day X : Z)
    (entry : DayPlanDetails) :
  noDoctorOnTwoDays planData →
  planData !! day = Some (Some entry) →
  X ∈ doctorIds entry →
  let after := handleRemoveDoctor day X planData in
  (X ∉ assignedDoctorIds after)
  ∧ (∀ doc otherDay otherEntry,
       doc ∈ allDoctors → doctor_id doc = X →
       otherDay ∈ WORK_WEEK_DAYS →
       after !! otherDay = Some (Some otherEntry) →
       doctor_regionId doc = regionId otherEntry →
       regionId otherEntry ≠ 0 →
       ∃ options,
         doctorSelectorOptions allDoctors after otherDay = Some options
         ∧ doc ∈ options)
  ∧ (∀ otherDay otherEntry,
       after !! otherDay = Some (Some otherEntry) →
       regionId otherEntry = 0 →
       doctorSelectorOptions allDoctors after otherDay = None).
Proof.
  intros Huniq Hday HX after.
  assert (X ∉ assignedDoctorIds after) as Hfree.
  { rewrite elem_of_assignedDoctorIds. intros (i & a & Hi & Ha).
    subst after. unfold handleRemoveDoctor in Hi. rewrite Hday in Hi.
    apply lookup_insert_Some in Hi as [[<- Hi]|[Hne Hi]].
    - injection Hi as <-. cbn [doctorIds] in Ha.
      apply list_elem_of_filter in Ha as [Hneq _]. done.
    - apply Hne. symmetry.
      by apply (proj1 (noDoctorOnTwoDays_spec planData) Huniq i day a entry X). }
  split; [done|]. split.
  - intros doc otherDay otherEntry Hdoc Hid Hwork Hother Hregion Hnonzero.
    exists (availableDoctorsInRegion allDoctors after otherDay). split.
    + unfold doctorSelectorOptions.
      rewrite bool_decide_eq_true_2 by exact Hwork. rewrite Hother.
      by destruct (Z.eqb_spec (regionId otherEntry) 0).
    + unfold availableDoctorsInRegion. rewrite Hother.
      apply list_elem_of_filter. rewrite Hid. done.
  - intros otherDay otherEntry Hother Hzero.
    unfold doctorSelectorOptions. rewrite Hother, Hzero.
    by case_bool_decide.
Qed.

(** Doctor 11 is removed from Saturday of the sample plan; Saturday stays
    in region 1, the doctor's region, and its selector offers the doctor
    again. *)
Lemma remove_doctor_frees_it_witness :
  let after := handleRemoveDoctor 6 11 samplePlan in
  let basil :=
    {| doctor_id := 11; doctor_name := "Dr. Basil"; doctor_regionId := 1;
       doctor_repId := "rep-1"; doctor_specialization := "PULMONOLOGY" |} in
  (11 ∉ assignedDoctorIds after)
  ∧ ∃ options,
      doctorSelectorOptions sampleDoctors after 6 = Some options
      ∧ basil ∈ options.
Proof.
  intros after basil.
  destruct (remove_doctor_frees_it sampleDoctors samplePlan 6 11
              {| regionId := 1; doctorIds := [11] |})
    as (Hfree & Hoffered & _).
  - apply (bool_decide_unpack _). vm_compute. exact I.
  - reflexivity.
  - apply (bool_decide_unpack _). vm_compute. exact I.
  - split; [exact Hfree|].
    apply (Hoffered basil 6 {| regionId := 1; doctorIds := [] |}).
    + apply (bool_decide_unpack _). vm_compute. exact I.
    + reflexivity.
    + apply (bool_decide_unpack _). vm_compute. exact I.
    + reflexivity.
    + reflexivity.
    + discriminate.
Defined.

(** X5.  A doctor that a day's selector offers is of that day's region and
    on no day.  Choosing it puts it at the end of the day's list, keeps
    both plan invariants, and afterwards no day's selector offers a doctor
    with that id. *)
Theorem offered_doctor_is_added_once
    (parseInt : string -> option Z) (allDoctors : list Doctor)
    (planData : PlanData) (dayIndex : Z) (doctorIdStr : string) (doc : Doctor) :
  doc ∈ availableDoctorsInRegion allDoctors planData dayIndex →
  parseInt doctorIdStr = Some (doctor_id doc) →
  let after :=
    applyMutation parseInt allDoctors planData (AddDoctor dayIndex doctorIdStr) in
  (∃ entry,
     planData !! dayIndex = Some (Some entry)
     ∧ doctor_regionId doc = regionId entry
     ∧ after !! dayIndex
       = Some (Some {| regionId := regionId entry;
                       doctorIds := doctorIds entry ++ [doctor_id doc] |}))
  ∧ (noDoctorOnTwoDays planData → noDoctorOnTwoDays after)
  ∧ (doctorsInDayRegion allDoctors planData →
     doctorsInDayRegion allDoctors after)
  ∧ (∀ other otherDay,
       other ∈ availableDoctorsInRegion allDoctors after otherDay →
       doctor_id other ≠ doctor_id doc).
Proof.
  intros Hoffered Hparse after.
  pose proof (offered_respects_region parseInt allDoctors planData dayIndex
                doctorIdStr doc Hoffered Hparse) as Hrespects.
  unfold availableDoctorsInRegion in Hoffered.
  destruct (planData !! dayIndex) as [[entry|]|] eqn:Hday;
    try (by apply elem_of_nil in Hoffered).
  apply list_elem_of_filter in Hoffered as [[Hregion Hfree] Hin].
  assert (after !! dayIndex
          = Some (Some {| regionId := regionId entry;
                          doctorIds := doctorIds entry ++ [doctor_id doc] |}))
    as Hafter.
  { subst after. simpl. unfold handleAddDoctor. rewrite Hparse, Hday.
    rewrite bool_decide_eq_false_2 by done.
    rewrite bool_decide_eq_false_2; [by rewrite lookup_insert_eq|].
    intros Hlisted. apply Hfree, elem_of_assignedDoctorIds. eauto. }
  split; [by exists entry|].
  split; [apply applyMutation_unique|].
  split; [intros Hreg; by apply applyMutation_region|].
  intros other otherDay Hother Hsame.
  unfold availableDoctorsInRegion in Hother.
  destruct (after !! otherDay) as [[otherEntry|]|];
    try (by apply elem_of_nil in Hother).
  apply list_elem_of_filter in Hother as [[_ Hunassigned] _].
  apply Hunassigned, elem_of_assignedDoctorIds.
  eexists dayIndex, _. split; [exact Hafter|].
  cbn [doctorIds]. rewrite Hsame, elem_of_app, list_elem_of_singleton. by right.
Qed.

(** Doctor 12 of region 1 is offered on Saturday of the sample plan. *)
Lemma offered_doctor_is_added_once_witness :
  applyMutation parseIntDecimal sampleDoctors samplePlan (AddDoctor 6 "12") !! 6
  = Some (Some {| regionId := 1; doctorIds := [11; 12] |}).
Proof.
  destruct (offered_doctor_is_added_once parseIntDecimal sampleDoctors
              samplePlan 6 "12"
              {| doctor_id := 12; doctor_name := "Dr. Careem";
                 doctor_regionId := 1; doctor_repId := "rep-1";
                 doctor_specialization := "PEDIATRICS" |})
    as [(entry & Hentry & _ & Hafter) _].
  - apply (bool_decide_unpack _). vm_compute. exact I.
  - reflexivity.
  - vm_compute in Hentry. injection Hentry as <-. exact Hafter.
Defined.

(** X6.  The plan that [handleSave] sends is a fixed point of the clean-up,
    and the clean-up keeps both plan invariants. *)
Theorem cleaned_plan_is_stable_and_valid
    (allDoctors : list Doctor) (planData : PlanData) :
  cleanedPlan (cleanedPlan planData) = cleanedPlan planData
  ∧ (noDoctorOnTwoDays planData → noDoctorOnTwoDays (cleanedPlan planData))
  ∧ (doctorsInDayRegion allDoctors planData →
     doctorsInDayRegion allDoctors (cleanedPlan planData))
  ∧ assignedDoctorIds (cleanedPlan planData) ⊆ assignedDoctorIds planData.
Proof.
  assert (∀ i a, cleanedPlan planData !! i = Some (Some a) →
                 planData !! i = Some (Some a)) as Hkept.
  { intros i a. rewrite cleanedPlan_lookup.
    destruct (decide (i ∈ WORK_WEEK_DAYS)); [|done].
    destruct (planData !! i) as [[b|]|]; simpl; congruence. }
  split; [|split; [|split]].
  - apply map_eq. intros i. rewrite !cleanedPlan_lookup.
    destruct (decide (i ∈ WORK_WEEK_DAYS)); done.
  - rewrite !noDoctorOnTwoDays_spec. intros Huniq i j a b x Hi Hj.
    apply (Huniq i j a b x); auto.
  - rewrite !doctorsInDayRegion_spec. intros Hreg i a x Hi.
    apply (Hreg i a x); auto.
  - intros x. rewrite !elem_of_assignedDoctorIds.
    intros (i & a & Hi & Ha). eauto.
Qed.

(** X7.  After [handleSave], [api.getRepPlan] for the same representative
    returns the cleaned plan with status [pending]; the rows of the other
    representatives are as before. *)
Theorem save_then_fetch_round_trip
    (u : User) (planData : PlanData) (be : Backend) :
  (getRepPlan (handleSave u planData be).1 (user_id u)).2
  = Returned {| plan := cleanedPlan planData; status := pending |}
  ∧ ∀ other, other ≠ user_id u →
      weekly_plans (handleSave u planData be).1 !! other
      = weekly_plans be !! other.
Proof.
  split.
  - unfold getRepPlan, handleSave, updateRepPlan. simpl.
    by rewrite lookup_insert_eq.
  - intros other Hother. unfold handleSave, updateRepPlan. simpl.
    by rewrite lookup_insert_ne.
Qed.

Lemma planStartDate_saturday (now : Date) :
  getDay (planStartDate (isPlanningTime now) now) = 6.
Proof.
  pose proof (getDay_range now) as Hrange.
  assert (getDay now = 0 ∨ getDay now = 1 ∨ getDay now = 2 ∨ getDay now = 3
          ∨ getDay now = 4 ∨ getDay now = 5 ∨ getDay now = 6) as Hcases by lia.
  unfold isPlanningTime, planStartDate. cbv zeta.
  destruct Hcases as [Hk|[Hk|[Hk|[Hk|[Hk|[Hk|Hk]]]]]]; rewrite Hk; simpl;
    rewrite getDay_addDays, Hk; reflexivity.
Qed.

(** X8.  The editor is opened on the start date that the dashboard
    computes, so the date shown beside each day of the work week falls on
    that weekday, within the seven days from the start date. *)
Theorem day_labels_fall_on_their_weekday (now : Date) (dayIndex : Z) :
  0 ≤ dayIndex ≤ 6 →
  let start := planStartDate (isPlanningTime now) now in
  ∃ d, getDayDate (Some start) dayIndex = Some d
       ∧ getDay d = dayIndex
       ∧ 0 ≤ localDay d - localDay start ≤ 6.
Proof.
  intros Hrange start. unfold getDayDate. cbv zeta.
  eexists. split; [reflexivity|].
  rewrite getDay_addDays, localDay_addDays.
  unfold start. rewrite planStartDate_saturday.
  destruct (Z.eqb_spec dayIndex 6) as [->|Hne]; [split; [done|lia]|].
  split; [|lia].
  assert (dayIndex = 0 ∨ dayIndex = 1 ∨ dayIndex = 2 ∨ dayIndex = 3
          ∨ dayIndex = 4 ∨ dayIndex = 5) as Hcases by lia.
  destruct Hcases as [->|[->|[->|[->|[->| ->]]]]]; reflexivity.
Qed.

(** The editor opened on Tuesday 3 November 2026 labels Wednesday with
    4 November. *)
Lemma day_labels_fall_on_their_weekday_witness :
  ∃ d, getDayDate (Some (planStartDate (isPlanningTime sampleToday) sampleToday)) 3
       = Some d
       ∧ getDay d = 3
       ∧ 0 ≤ localDay d
             - localDay (planStartDate (isPlanningTime sampleToday) sampleToday)
           ≤ 6.
Proof.
  apply (day_labels_fall_on_their_weekday sampleToday 3). lia.
Defined.

(** ** The plan lifecycle *)

(** X9.  [api.reviewRepPlan] and [api.revokePlanApproval] change a status
    and nothing else: every row keeps its plan, no row appears or
    disappears, and the rows of the other representatives are untouched. *)
Theorem status_updates_keep_plans
    (be : Backend) (repId : string) (newStatus : ReviewStatus) (r : string) :
  plan <$> weekly_plans (reviewRepPlan be repId newStatus).1 !! r
  = plan <$> weekly_plans be !! r
  ∧ plan <$> weekly_plans (revokePlanApproval be repId).1 !! r
    = plan <$> weekly_plans be !! r
  ∧ (r ≠ repId →
     weekly_plans (reviewRepPlan be repId newStatus).1 !! r
     = weekly_plans be !! r
     ∧ weekly_plans (revokePlanApproval be repId).1 !! r
       = weekly_plans be !! r).
Proof.
  unfold reviewRepPlan, revokePlanApproval, updateStatusSingle.
  destruct (weekly_plans be !! repId) as [row|] eqn:Hrow; simpl.
  - destruct (decide (r = repId)) as [->|Hne].
    + rewrite !lookup_insert_eq, Hrow. done.
    + rewrite !lookup_insert_ne by done. done.
  - done.
Qed.

(** X10.  A review or a manager's revoke for a representative who has no
    row in the store fails: the request is sent, the table and the
    dashboard's plans stay as they are, and the failure message of the
    action is shown. *)
Theorem review_without_row_fails
    (t : string -> list string -> string) (st : ManagerState) (be : Backend)
    (repId : string) (newStatus : ReviewStatus) :
  weekly_plans be !! repId = None →
  handleReviewPlan t repId newStatus st be
  = (setReviewMessage st
       {| text := t "plan_review_error" []; message_type := failure |},
     {| weekly_plans := weekly_plans be;
        requests := requests be ++ [UpdateStatus repId (statusOfReview newStatus)] |})
  ∧ (role <$> user st = Some Manager →
     handleRevokeApproval t repId st be
     = (setReviewMessage st
          {| text := t "plan_revoke_error" []; message_type := failure |},
        {| weekly_plans := weekly_plans be;
           requests := requests be ++ [UpdateStatus repId draft] |})).
Proof.
  intros Hnone. split.
  - unfold handleReviewPlan, reviewRepPlan, updateStatusSingle.
    by rewrite Hnone.
  - intros Hmgr. unfold handleRevokeApproval.
    rewrite bool_decide_eq_false_2 by (rewrite Hmgr; auto).
    unfold revokePlanApproval, updateStatusSingle. by rewrite Hnone.
Qed.

Lemma review_without_row_fails_witness :
  (handleReviewPlan showKey "rep-2" review_approved
     (sampleManagerState sampleManager) sampleBackend).1
  = setReviewMessage (sampleManagerState sampleManager)
      {| text := "plan_review_error"; message_type := failure |}.
Proof.
  rewrite (proj1 (review_without_row_fails showKey
                    (sampleManagerState sampleManager) sampleBackend
                    "rep-2" review_approved eq_refl)).
  reflexivity.
Defined.

(** X11.  When the store has a row for the representative, a review takes
    the plan off the list of pending plans, stores the new status, and
    leaves the other entries of the list as they were. *)
Theorem review_takes_plan_off_pending_list
    (t : string -> list string -> string) (st : ManagerState) (be : Backend)
    (repId : string) (newStatus : ReviewStatus) (row : WeeklyPlan) :
  weekly_plans be !! repId = Some row →
  let after := handleReviewPlan t repId newStatus st be in
  (∀ p, (repId, p) ∉ pendingPlans (allPlans after.1))
  ∧ (∀ r p, r ≠ repId →
       (r, p) ∈ pendingPlans (allPlans after.1)
       ↔ (r, p) ∈ pendingPlans (allPlans st))
  ∧ weekly_plans after.2 !! repId
    = Some {| plan := plan row; status := statusOfReview newStatus |}.
Proof.
  intros Hrow after. subst after.
  unfold handleReviewPlan, reviewRepPlan, updateStatusSingle.
  rewrite Hrow. simpl. split; [|split].
  - intros p. rewrite elem_of_pendingPlans. unfold optimisticStatus.
    rewrite lookup_insert_eq. intros [[= <-] Hstatus]. simpl in Hstatus.
    by destruct newStatus.
  - intros r p Hne. rewrite !elem_of_pendingPlans. unfold optimisticStatus.
    by rewrite lookup_insert_ne.
  - by rewrite lookup_insert_eq.
Qed.

(** Rejecting the draft of [rep-1] in the sample store. *)
Lemma review_takes_plan_off_pending_list_witness :
  weekly_plans
    (handleReviewPlan showKey "rep-1" review_rejected
       (sampleManagerState sampleManager) sampleBackend).2 !! "rep-1"
  = Some {| plan := samplePlan; status := rejected |}.
Proof.
  apply (review_takes_plan_off_pending_list showKey
           (sampleManagerState sampleManager) sampleBackend "rep-1"
           review_rejected {| plan := samplePlan; status := draft |}).
  reflexivity.
Defined.

(** X12.  From approval to revoke, as the representative sees it.  After an
    approval the fetched plan is approved with its content unchanged, and
    outside planning time the weekly-plan action opens the read-only view.
    After a manager's revoke the fetched plan is a draft with the same
    content, and the action opens the editor at any time. *)
Theorem approval_locks_and_revoke_unlocks
    (t : string -> list string -> string) (st : ManagerState) (be : Backend)
    (repId : string) (row : WeeklyPlan) :
  weekly_plans be !! repId = Some row →
  role <$> user st = Some Manager →
  let approvedState := handleReviewPlan t repId review_approved st be in
  let revokedState :=
    handleRevokeApproval t repId approvedState.1 approvedState.2 in
  (getRepPlan approvedState.2 repId).2
  = Returned {| plan := plan row; status := approved |}
  ∧ handleWeeklyPlanClick (Some {| plan := plan row; status := approved |}) false
    = view_weekly
  ∧ (getRepPlan revokedState.2 repId).2
    = Returned {| plan := plan row; status := draft |}
  ∧ ∀ planningTime,
      handleWeeklyPlanClick (Some {| plan := plan row; status := draft |})
        planningTime
      = view_plan.
Proof.
  intros Hrow Hmgr approvedState revokedState.
  subst revokedState approvedState.
  unfold handleReviewPlan, reviewRepPlan, updateStatusSingle.
  rewrite Hrow. simpl.
  unfold handleRevokeApproval. simpl.
  rewrite bool_decide_eq_false_2 by (rewrite Hmgr; auto).
  unfold revokePlanApproval, updateStatusSingle. simpl.
  rewrite lookup_insert_eq. simpl.
  unfold getRepPlan. simpl. rewrite !lookup_insert_eq. simpl.
  repeat split.
Qed.

Lemma approval_locks_and_revoke_unlocks_witness :
  (getRepPlan
     (handleReviewPlan showKey "rep-1" review_approved
        (sampleManagerState sampleManager) sampleBackend).2 "rep-1").2
  = Returned {| plan := samplePlan; status := approved |}.
Proof.
  apply (approval_locks_and_revoke_unlocks showKey
           (sampleManagerState sampleManager) sampleBackend "rep-1"
           {| plan := samplePlan; status := draft |}).
  - reflexivity.
  - reflexivity.
Defined.

(** ** Selections *)

(** X13.  [handleWeekendChange] and [handleRepSelectionChange] toggle one
    element: its membership flips, the membership of every other element
    stays, a list without repetition stays so, and toggling an absent
    element twice gives back the list. *)
Theorem toggles_flip_one_element
    (dayIndex : Z) (weekends : list Z) (repId : string) (selected : list string) :
  ((dayIndex ∈ handleWeekendChange dayIndex weekends ↔ dayIndex ∉ weekends)
   ∧ (∀ d, d ≠ dayIndex →
        d ∈ handleWeekendChange dayIndex weekends ↔ d ∈ weekends)
   ∧ (NoDup weekends → NoDup (handleWeekendChange dayIndex weekends))
   ∧ (dayIndex ∉ weekends →
      handleWeekendChange dayIndex (handleWeekendChange dayIndex weekends)
      = weekends))
  ∧ ((repId ∈ handleRepSelectionChange repId selected ↔ repId ∉ selected)
     ∧ (∀ i, i ≠ repId →
          i ∈ handleRepSelectionChange repId selected ↔ i ∈ selected)
     ∧ (NoDup selected → NoDup (handleRepSelectionChange repId selected))
     ∧ (repId ∉ selected →
        handleRepSelectionChange repId (handleRepSelectionChange repId selected)
        = selected)).
Proof.
  assert (∀ (A : Type) `{EqDecision A} (x : A) (l : list A),
            let toggled :=
              if bool_decide (x ∈ l) then filter (fun y => y ≠ x) l
              else l ++ [x] in
            (x ∈ toggled ↔ x ∉ l)
            ∧ (∀ y, y ≠ x → y ∈ toggled ↔ y ∈ l)
            ∧ (NoDup l → NoDup toggled)
            ∧ (x ∉ l →
               (if bool_decide (x ∈ toggled)
                then filter (fun y => y ≠ x) toggled
                else toggled ++ [x]) = l)) as Htoggle.
  { intros A ? x l toggled. subst toggled.
    case_bool_decide as Hin.
    - split; [rewrite list_elem_of_filter; tauto|].
      split; [intros y Hy; rewrite list_elem_of_filter; tauto|].
      split; [apply NoDup_filter|done].
    - split; [rewrite elem_of_app, list_elem_of_singleton; tauto|].
      split.
      { intros y Hy. rewrite elem_of_app, list_elem_of_singleton. tauto. }
      split.
      { intros Hnd. apply NoDup_app. split; [done|].
        split; [|apply NoDup_singleton].
        intros y Hy Hy'. apply list_elem_of_singleton in Hy' as ->. done. }
      intros _. rewrite bool_decide_eq_true_2
        by (rewrite elem_of_app, list_elem_of_singleton; tauto).
      rewrite filter_app, filter_cons, decide_False, filter_nil, app_nil_r
        by tauto.
      clear -Hin. induction l as [|a l IH]; [done|].
      apply not_elem_of_cons in Hin as [Hne Hin].
      rewrite filter_cons, decide_True by congruence. by rewrite IH. }
  split.
  - apply (Htoggle Z _ dayIndex weekends).
  - apply (Htoggle string _ repId selected).
Qed.

(** X14.  Whatever products are clicked in the visit form, starting from
    the empty selection, at most three products are selected and none
    twice; a click on a selected product always removes it. *)
Theorem product_selection_is_capped (clicks : list Z) :
  let selection :=
    foldl (fun chosen productId => handleProductChange productId chosen)
          [] clicks in
  (length selection ≤ 3)%nat
  ∧ NoDup selection
  ∧ ∀ productId, productId ∈ selection →
      productId ∉ handleProductChange productId selection.
Proof.
  assert (∀ productId chosen,
            (length chosen ≤ 3)%nat ∧ NoDup chosen →
            (length (handleProductChange productId chosen) ≤ 3)%nat
            ∧ NoDup (handleProductChange productId chosen)) as Hstep.
  { intros productId chosen [Hlen Hnd]. unfold handleProductChange.
    case_bool_decide as Hin.
    - split; [|by apply NoDup_filter].
      pose proof (length_filter (fun i => i ≠ productId) chosen). lia.
    - case_bool_decide as Hroom; [|done].
      split; [rewrite length_app; simpl; lia|].
      apply NoDup_app. split; [done|]. split; [|apply NoDup_singleton].
      intros y Hy Hy'. apply list_elem_of_singleton in Hy' as ->. done. }
  assert (∀ start, (length start ≤ 3)%nat ∧ NoDup start →
            (length (foldl (fun chosen productId =>
                              handleProductChange productId chosen)
                           start clicks) ≤ 3)%nat
            ∧ NoDup (foldl (fun chosen productId =>
                              handleProductChange productId chosen)
                           start clicks)) as Hall.
  { induction clicks as [|c clicks IH]; intros start Hstart; [done|].
    simpl. apply IH, Hstep, Hstart. }
  intros selection.
  destruct (Hall [] ltac:(split; [simpl; lia|constructor])) as [Hlen Hnd].
  split; [done|]. split; [done|].
  intros productId Hin. unfold handleProductChange.
  rewrite bool_decide_eq_true_2 by done.
  rewrite list_elem_of_filter. tauto.
Qed.

(** ** Weeks *)

Lemma getDay_cases (d : Date) :
  getDay d = 0 ∨ getDay d = 1 ∨ getDay d = 2 ∨ getDay d = 3
  ∨ getDay d = 4 ∨ getDay d = 5 ∨ getDay d = 6.
Proof. pose proof (getDay_range d). lia. Qed.

Lemma addDays_addDays (d : Date) (m n : Z) :
  addDays (addDays d m) n = addDays d (m + n).
Proof. unfold addDays. lia. Qed.

Lemma addDays_0 (d : Date) : addDays d 0 = d.
Proof. unfold addDays. lia. Qed.

(** X15.  The week that the weekly view shows for a date: seven dates on
    consecutive days, whose weekdays are Saturday, Sunday, ..., Friday in
    this order (so each day index of the plan is shown once), and the date
    itself is one of them. *)
Theorem week_dates_cover_the_work_week (currentDate : Date) :
  getDay <$> getWeekDates currentDate = WORK_WEEK_DAYS
  ∧ (∃ saturday,
       getWeekDates currentDate = (fun i => addDays saturday i) <$> seqZ 0 7
       ∧ localDay <$> getWeekDates currentDate = seqZ (localDay saturday) 7)
  ∧ currentDate ∈ getWeekDates currentDate.
Proof.
  unfold getWeekDates. cbv zeta.
  set (diff := if getDay currentDate <? 6 then getDay currentDate + 1 else 0).
  set (saturday := addDays currentDate (- diff)).
  assert (getDay saturday = 6) as Hsat.
  { unfold saturday, diff. rewrite getDay_addDays.
    destruct (getDay_cases currentDate) as [Hk|[Hk|[Hk|[Hk|[Hk|[Hk|Hk]]]]]];
      rewrite Hk; reflexivity. }
  assert (0 ≤ diff ≤ 6) as Hdiff.
  { unfold diff. pose proof (getDay_range currentDate).
    destruct (Z.ltb_spec (getDay currentDate) 6); lia. }
  change (seqZ 0 7) with [0; 1; 2; 3; 4; 5; 6].
  split; [|split].
  - cbn [fmap list_fmap]. rewrite !getDay_addDays, Hsat. reflexivity.
  - exists saturday. split; [done|].
    cbn [fmap list_fmap]. rewrite !localDay_addDays.
    unfold seqZ. simpl. do 6 (f_equal; [lia|]). f_equal. lia.
  - assert (currentDate = addDays saturday diff) as Hcur.
    { unfold saturday. rewrite addDays_addDays.
      replace (- diff + diff) with 0 by lia. by rewrite addDays_0. }
    rewrite Hcur at 1.
    assert (diff = 0 ∨ diff = 1 ∨ diff = 2 ∨ diff = 3 ∨ diff = 4
            ∨ diff = 5 ∨ diff = 6) as Hcases by lia.
    cbn [fmap list_fmap]. rewrite !elem_of_cons.
    destruct Hcases as [->|[->|[->|[->|[->|[->| ->]]]]]]; tauto.
Qed.

(** X16.  In the weekly view, going to the next week and back returns to
    the same date, and the week shown after a step is the shown week with
    every date moved by seven days. *)
Theorem week_navigation_moves_by_seven_days (currentDate : Date) :
  navigateWeek prev (navigateWeek next currentDate) = currentDate
  ∧ navigateWeek next (navigateWeek prev currentDate) = currentDate
  ∧ getWeekDates (navigateWeek next currentDate)
    = (fun d => addDays d 7) <$> getWeekDates currentDate
  ∧ getWeekDates (navigateWeek prev currentDate)
    = (fun d => addDays d (-7)) <$> getWeekDates currentDate.
Proof.
  assert (∀ n, n = 7 ∨ n = -7 →
            getWeekDates (addDays currentDate n)
            = (fun d => addDays d n) <$> getWeekDates currentDate) as Hshift.
  { intros n Hn. unfold getWeekDates. cbv zeta.
    assert (getDay (addDays currentDate n) = getDay currentDate) as ->.
    { rewrite getDay_addDays. unfold getDay at 2.
      destruct Hn as [-> | ->].
      - replace (getDay currentDate + 7) with (getDay currentDate + 1 * 7) by lia.
        rewrite Z_mod_plus_full. unfold getDay. apply Zmod_mod.
      - replace (getDay currentDate + -7)
          with (getDay currentDate + -1 * 7) by lia.
        rewrite Z_mod_plus_full. unfold getDay. apply Zmod_mod. }
    rewrite <- list_fmap_compose. apply list_fmap_ext. intros _ i _.
    simpl. rewrite !addDays_addDays. f_equal. lia. }
  unfold navigateWeek.
  split; [rewrite addDays_addDays; apply addDays_0|].
  split; [rewrite addDays_addDays; apply addDays_0|].
  split; apply Hshift; auto.
Qed.

(** X17.  The three computations of the current week agree.  The Saturday
    that opens the week of the weekly view is the start date of the
    manager's current-week filter and the representative's plan-week start
    outside planning time; the filter ends on the Friday that closes the
    shown week, and today lies between them.  In planning time the
    representative's plan week starts seven days later. *)
Theorem week_computations_agree (now : Date) :
  let weekStart := (getCurrentWeekDates now).1 in
  let weekEnd := (getCurrentWeekDates now).2 in
  head (getWeekDates now) = Some weekStart
  ∧ last (getWeekDates now) = Some weekEnd
  ∧ planStartDate false now = weekStart
  ∧ getDay weekStart = 6 ∧ getDay weekEnd = 5
  ∧ localDay weekStart ≤ localDay now ≤ localDay weekEnd
  ∧ (isPlanningTime now = true →
     planStartDate (isPlanningTime now) now = addDays weekStart 7).
Proof.
  intros weekStart weekEnd. subst weekStart weekEnd.
  unfold getCurrentWeekDates, getWeekDates, planStartDate, isPlanningTime.
  cbv zeta. cbn [fst snd].
  change (seqZ 0 7) with [0; 1; 2; 3; 4; 5; 6]. cbn [fmap list_fmap head last].
  rewrite addDays_0, !getDay_addDays, !localDay_addDays.
  destruct (getDay_cases now) as [Hk|[Hk|[Hk|[Hk|[Hk|[Hk|Hk]]]]]];
    rewrite Hk; eval_rem; simpl;
    rewrite ?addDays_addDays; simpl;
    repeat split; try reflexivity; try lia; try discriminate.
Qed.

(** ** The doctors still to visit today *)

Lemma doctorNameToIdMap_snoc (doctors : list Doctor) (d : Doctor) :
  doctorNameToIdMap (doctors ++ [d])
  = <[doctor_name d := doctor_id d]> (doctorNameToIdMap doctors).
Proof. unfold doctorNameToIdMap. by rewrite foldl_app. Qed.

Lemma doctorNameToIdMap_Some (doctors : list Doctor) (n : string) (i : Z) :
  doctorNameToIdMap doctors !! n = Some i →
  ∃ d, d ∈ doctors ∧ doctor_name d = n ∧ doctor_id d = i.
Proof.
  induction doctors as [|d doctors IH] using rev_ind.
  - unfold doctorNameToIdMap. simpl. by rewrite lookup_empty.
  - rewrite doctorNameToIdMap_snoc. intros Hlookup.
    apply lookup_insert_Some in Hlookup as [[<- <-]|[Hne Hlookup]].
    + exists d. rewrite elem_of_app, list_elem_of_singleton. auto.
    + destruct (IH Hlookup) as (d' & Hin & Hname & Hid).
      exists d'. rewrite elem_of_app. auto.
Qed.

Lemma doctorNameToIdMap_unique_names (doctors : list Doctor) (d : Doctor) :
  NoDup (doctor_name <$> doctors) →
  d ∈ doctors →
  doctorNameToIdMap doctors !! doctor_name d = Some (doctor_id d).
Proof.
  induction doctors as [|x doctors IH] using rev_ind; intros Hnd Hin.
  - by apply elem_of_nil in Hin.
  - rewrite doctorNameToIdMap_snoc.
    rewrite fmap_app in Hnd. apply NoDup_app in Hnd as (Hnd & Hfresh & _).
    apply elem_of_app in Hin as [Hin|Hin].
    + rewrite lookup_insert_ne; [by apply IH|].
      intros Hsame. apply (Hfresh (doctor_name d)).
      * apply list_elem_of_fmap. eauto.
      * rewrite <- Hsame. simpl. apply list_elem_of_singleton. done.
    + apply list_elem_of_singleton in Hin as ->. by rewrite lookup_insert_eq.
Qed.

Lemma elem_of_pendingDoctorsForToday
    (newDate : string -> option Date) (p : WeeklyPlan) (today : Date)
    (recentVisits : list VisitReport) (doctors : list Doctor) (d : Doctor) :
  d ∈ pendingDoctorsForToday newDate (Some p) today recentVisits doctors
  ↔ d ∈ doctors
    ∧ doctor_id d ∈ doctorsForDay (default None (plan p !! getDay today))
    ∧ ¬ ∃ v, v ∈ recentVisits
             ∧ doctorVisitOfToday newDate today v = true
             ∧ doctorNameToIdMap doctors !! targetName v = Some (doctor_id d).
Proof.
  unfold pendingDoctorsForToday. cbv zeta.
  set (todays := doctorsForDay (default None (plan p !! getDay today))).
  assert (∀ i visits,
            i ∈ (list_to_set
                   (omap (fun v => doctorNameToIdMap doctors !! targetName v)
                      (filter (fun v => doctorVisitOfToday newDate today v = true)
                              visits)) : gset Z)
            ↔ ∃ v, v ∈ visits
                   ∧ doctorVisitOfToday newDate today v = true
                   ∧ doctorNameToIdMap doctors !! targetName v = Some i)
    as Hvisited.
  { intros i visits. rewrite elem_of_list_to_set, list_elem_of_omap.
    split.
    - intros (v & Hv & Hmap). apply list_elem_of_filter in Hv as [? ?]. eauto.
    - intros (v & Hv & Htoday & Hmap). exists v.
      rewrite list_elem_of_filter. auto. }
  case_bool_decide as Hempty.
  - apply length_zero_iff_nil in Hempty. rewrite Hempty.
    split; [by intros ?%elem_of_nil|]. by intros (_ & ?%elem_of_nil & _).
  - rewrite list_elem_of_filter, list_elem_of_filter, Hvisited. tauto.
Qed.

(** X18.  When the representative's doctors have distinct names and
    distinct ids, a doctor is still to visit today exactly when it is one
    of the representative's doctors, today's day of the plan lists it, and
    no doctor visit dated today names it.  Without a plan nobody is. *)
Theorem pending_doctors_of_today
    (newDate : string -> option Date) (p : WeeklyPlan) (today : Date)
    (recentVisits : list VisitReport) (doctors : list Doctor) (d : Doctor) :
  NoDup (doctor_name <$> doctors) →
  NoDup (doctor_id <$> doctors) →
  (d ∈ pendingDoctorsForToday newDate (Some p) today recentVisits doctors
   ↔ d ∈ doctors
     ∧ (∃ entry, plan p !! getDay today = Some (Some entry)
                 ∧ doctor_id d ∈ doctorIds entry)
     ∧ ¬ ∃ v, v ∈ recentVisits
              ∧ doctorVisitOfToday newDate today v = true
              ∧ targetName v = doctor_name d)
  ∧ pendingDoctorsForToday newDate None today recentVisits doctors = [].
Proof.
  intros Hnames Hids. split; [|done].
  rewrite elem_of_pendingDoctorsForToday.
  assert (doctor_id d ∈ doctorsForDay (default None (plan p !! getDay today))
          ↔ ∃ entry, plan p !! getDay today = Some (Some entry)
                     ∧ doctor_id d ∈ doctorIds entry) as ->.
  { destruct (plan p !! getDay today) as [[entry|]|]; simpl.
    - split; [eauto|]. by intros (? & [= <-] & ?).
    - split; [by intros ?%elem_of_nil|]. by intros (? & ? & _).
    - split; [by intros ?%elem_of_nil|]. by intros (? & ? & _). }
  split.
  - intros (Hd & Hplanned & Hnot). repeat split; try done.
    intros (v & Hv & Htoday & Hname). apply Hnot. exists v.
    rewrite Hname. auto using doctorNameToIdMap_unique_names.
  - intros (Hd & Hplanned & Hnot). repeat split; try done.
    intros (v & Hv & Htoday & Hmap). apply Hnot. exists v.
    split; [done|]. split; [done|].
    apply doctorNameToIdMap_Some in Hmap as (d' & Hd' & Hname & Hid).
    assert (d' = d) as ->; [|done].
    apply list_elem_of_lookup in Hd as [i Hi].
    apply list_elem_of_lookup in Hd' as [j Hj].
    assert (i = j) as ->; [|congruence].
    apply (NoDup_lookup (doctor_id <$> doctors) i j (doctor_id d)); [done|..].
    + by rewrite list_lookup_fmap, Hi.
    + by rewrite list_lookup_fmap, Hj, <- Hid.
Qed.

(** Tuesday 3 November 2026, with doctors 11 and 12 planned for Tuesday:
    the sample doctors have distinct names and distinct ids, so the
    characterisation holds for doctor 12. *)
Lemma pending_doctors_of_today_witness :
  let p :=
    {| plan := <[2 := Some {| regionId := 1; doctorIds := [11; 12] |}]>
                 samplePlan;
       status := approved |} in
  let d :=
    {| doctor_id := 12; doctor_name := "Dr. Careem";
       doctor_regionId := 1; doctor_repId := "rep-1";
       doctor_specialization := "PEDIATRICS" |} in
  (d ∈ pendingDoctorsForToday parseIsoDay (Some p) sampleToday sampleVisits
         sampleDoctors
   ↔ d ∈ sampleDoctors
     ∧ (∃ entry, plan p !! getDay sampleToday = Some (Some entry)
                 ∧ doctor_id d ∈ doctorIds entry)
     ∧ ¬ ∃ v, v ∈ sampleVisits
              ∧ doctorVisitOfToday parseIsoDay sampleToday v = true
              ∧ targetName v = doctor_name d)
  ∧ pendingDoctorsForToday parseIsoDay None sampleToday sampleVisits
      sampleDoctors = [].
Proof.
  intros p d.
  apply (pending_doctors_of_today parseIsoDay p sampleToday sampleVisits
           sampleDoctors d).
  - apply (bool_decide_unpack _). vm_compute. exact I.
  - apply (bool_decide_unpack _). vm_compute. exact I.
Defined.

Lemma doctorNameToIdMap_later (front rest : list Doctor) (x : Doctor) (i : Z) :
  doctorNameToIdMap (front ++ [x] ++ rest) !! doctor_name x = Some i →
  i = doctor_id x
  ∨ ∃ y, y ∈ rest ∧ doctor_name y = doctor_name x ∧ doctor_id y = i.
Proof.
  induction rest as [|z rest IH] using rev_ind.
  - rewrite app_nil_r, doctorNameToIdMap_snoc, lookup_insert_eq.
    intros [= <-]. by left.
  - rewrite !app_assoc, doctorNameToIdMap_snoc, <- !app_assoc.
    intros Hlookup.
    apply lookup_insert_Some in Hlookup as [[Hname <-]|[_ Hlookup]].
    + right. exists z. rewrite elem_of_app, list_elem_of_singleton. auto.
    + destruct (IH Hlookup) as [->|(y & Hy & Hname & Hid)]; [by left|].
      right. exists y. rewrite elem_of_app. auto.
Qed.

(** X19.  Visits are matched to doctors by name.  When a later doctor of
    the list bears the same name as a planned doctor, a visit under that
    name counts for the later one, and the planned doctor stays pending
    however often the name was visited today. *)
Theorem same_name_hides_a_visit
    (newDate : string -> option Date) (p : WeeklyPlan) (today : Date)
    (recentVisits : list VisitReport) (before middle rest : list Doctor)
    (d namesake : Doctor) (entry : DayPlanDetails) :
  plan p !! getDay today = Some (Some entry) →
  doctor_id d ∈ doctorIds entry →
  doctor_name namesake = doctor_name d →
  doctor_id namesake ≠ doctor_id d →
  (∀ x, x ∈ before ++ middle ++ rest → doctor_id x ≠ doctor_id d) →
  d ∈ pendingDoctorsForToday newDate (Some p) today recentVisits
        (before ++ [d] ++ middle ++ [namesake] ++ rest).
Proof.
  intros Hplan Hlisted Hname Hid Hids.
  apply elem_of_pendingDoctorsForToday. rewrite Hplan. simpl.
  split; [rewrite elem_of_app, elem_of_cons; auto|].
  split; [done|].
  intros (v & _ & _ & Hmap).
  destruct (decide (targetName v = doctor_name d)) as [Hv|Hv].
  - rewrite Hv, <- Hname in Hmap.
    replace (before ++ d :: middle ++ namesake :: rest)
      with ((before ++ d :: middle) ++ [namesake] ++ rest) in Hmap
      by (by rewrite <- app_assoc).
    apply doctorNameToIdMap_later in Hmap as [Hsame|(y & Hy & _ & Hsame)].
    + by apply Hid.
    + apply (Hids y); [rewrite !elem_of_app; auto|done].
  - apply doctorNameToIdMap_Some in Hmap as (x & Hx & Hxname & Hxid).
    rewrite elem_of_app, elem_of_cons, elem_of_app, elem_of_cons in Hx.
    destruct Hx as [Hx|[->|[Hx|[->|Hx]]]].
    + apply (Hids x); [rewrite !elem_of_app; auto|done].
    + by apply Hv.
    + apply (Hids x); [rewrite !elem_of_app; auto|done].
    + by apply Hid.
    + apply (Hids x); [rewrite !elem_of_app; auto|done].
Qed.

(** Two doctors named alike: doctor 11 is planned for Tuesday and was
    visited, doctor 21 comes later in the list. *)
Lemma same_name_hides_a_visit_witness :
  let basil :=
    {| doctor_id := 11; doctor_name := "Dr. Basil"; doctor_regionId := 1;
       doctor_repId := "rep-1"; doctor_specialization := "PULMONOLOGY" |} in
  let namesake :=
    {| doctor_id := 21; doctor_name := "Dr. Basil"; doctor_regionId := 2;
       doctor_repId := "rep-1"; doctor_specialization := "PEDIATRICS" |} in
  basil ∈ pendingDoctorsForToday parseIsoDay
            (Some {| plan := {[ 2 := Some {| regionId := 1; doctorIds := [11] |} ]};
                     status := approved |})
            sampleToday sampleVisits ([] ++ [basil] ++ [] ++ [namesake] ++ []).
Proof.
  intros basil namesake.
  apply (same_name_hides_a_visit parseIsoDay _ sampleToday sampleVisits
           [] [] [] basil namesake {| regionId := 1; doctorIds := [11] |}).
  - reflexivity.
  - apply (bool_decide_unpack _). vm_compute. exact I.
  - reflexivity.
  - discriminate.
  - intros x Hx. by apply elem_of_nil in Hx.
Defined.

(** ** The month of the representative *)

Section MonthProperties.

Variable utcOffset : Z.
Variable newDate : string -> option Date.
Variable today : Date.

Lemma countedThisMonth_inCurrentMonth (v : VisitReport) :
  countedThisMonth newDate today v
  = inCurrentMonth newDate today v && bool_decide (type v = DOCTOR_VISIT).
Proof.
  unfold countedThisMonth, inCurrentMonth. by destruct (newDate (date v)).
Qed.

Lemma tallyVisit_counted (tally : MonthTally) (v : VisitReport) :
  inCurrentMonth newDate today v = true ->
  tallyVisit utcOffset newDate today tally v
  = {| doctorVisits :=
         match type v with
         | DOCTOR_VISIT => doctorVisits tally + 1
         | PHARMACY_VISIT => doctorVisits tally
         end;
       pharmacyVisits :=
         match type v with
         | DOCTOR_VISIT => pharmacyVisits tally
         | PHARMACY_VISIT => pharmacyVisits tally + 1
         end;
       workingDays :=
         {[ toYYYYMMDD utcOffset (default 0 (newDate (date v))) ]}
         ∪ workingDays tally |}.
Proof.
  unfold inCurrentMonth, tallyVisit.
  destruct (newDate (date v)) as [visitDate|]; [|discriminate].
  intros ->. reflexivity.
Qed.

Lemma tallyVisit_skipped (tally : MonthTally) (v : VisitReport) :
  inCurrentMonth newDate today v = false ->
  tallyVisit utcOffset newDate today tally v = tally.
Proof.
  unfold inCurrentMonth, tallyVisit.
  destruct (newDate (date v)) as [visitDate|]; [|reflexivity].
  intros ->. reflexivity.
Qed.

(** The tally after the loop over [visits], started from [tally]. *)
Lemma tallyVisit_fold (visits : list VisitReport) (tally : MonthTally) :
  let inMonth := filter (fun v => inCurrentMonth newDate today v = true) visits in
  let after := foldl (tallyVisit utcOffset newDate today) tally visits in
  doctorVisits after
  = doctorVisits tally
    + Z.of_nat (length (filter (fun v => type v = DOCTOR_VISIT) inMonth))
  ∧ pharmacyVisits after
    = pharmacyVisits tally
      + Z.of_nat (length (filter (fun v => type v = PHARMACY_VISIT) inMonth))
  ∧ workingDays after
    = list_to_set
        ((fun v => toYYYYMMDD utcOffset (default 0 (newDate (date v))))
           <$> inMonth) ∪ workingDays tally.
Proof.
  cbv zeta. revert tally. induction visits as [|v visits IH]; intros tally.
  - cbn [foldl]. rewrite !filter_nil, fmap_nil, list_to_set_nil.
    rewrite (left_id_L ∅ (∪)). cbn [length]. repeat split; lia || reflexivity.
  - cbn [foldl].
    destruct (IH (tallyVisit utcOffset newDate today tally v))
      as (-> & -> & ->). clear IH.
    rewrite filter_cons.
    destruct (inCurrentMonth newDate today v) eqn:Hin.
    + rewrite (tallyVisit_counted _ _ Hin).
      cbn [doctorVisits pharmacyVisits workingDays].
      rewrite decide_True by reflexivity.
      rewrite !filter_cons, fmap_cons, list_to_set_cons.
      generalize (toYYYYMMDD utcOffset (default 0 (newDate (date v)))).
      intros key.
      generalize (list_to_set
        ((fun v0 => toYYYYMMDD utcOffset (default 0 (newDate (date v0))))
           <$> filter (fun v0 => inCurrentMonth newDate today v0 = true) visits)
        : gset string).
      intros days.
      destruct (type v).
      * rewrite decide_True by reflexivity.
        rewrite decide_False by discriminate.
        cbn [length]. split; [lia|]. split; [reflexivity|].
        rewrite (assoc_L (∪)), (comm_L (∪) days). reflexivity.
      * rewrite decide_False by discriminate.
        rewrite decide_True by reflexivity.
        cbn [length]. split; [reflexivity|]. split; [lia|].
        rewrite (assoc_L (∪)), (comm_L (∪) days). reflexivity.
    + rewrite (tallyVisit_skipped _ _ Hin).
      rewrite decide_False by discriminate. repeat split.
Qed.

Lemma size_list_to_set_le (l : list string) :
  (size (list_to_set l : gset string) <= length l)%nat.
Proof.
  induction l as [|a l IH].
  - rewrite list_to_set_nil, size_empty. cbn [length]. lia.
  - rewrite list_to_set_cons. cbn [length].
    generalize dependent (list_to_set l : gset string). intros days IH.
    rewrite size_union_alt, size_singleton.
    assert (size (days ∖ {[a]}) <= size days)%nat
      by (apply subseteq_size, subseteq_difference_l; reflexivity).
    lia.
Qed.

Lemma length_filter_by_type (l : list VisitReport) :
  (length (filter (fun v => type v = DOCTOR_VISIT) l)
   + length (filter (fun v => type v = PHARMACY_VISIT) l) = length l)%nat.
Proof.
  induction l as [|v l IH]; [reflexivity|].
  rewrite !filter_cons. destruct (type v).
  - rewrite decide_True by reflexivity. rewrite decide_False by discriminate.
    cbn [length]. lia.
  - rewrite decide_False by discriminate. rewrite decide_True by reflexivity.
    cbn [length]. lia.
Qed.

Lemma doctorVisits_countedTargets (visits : list VisitReport) :
  doctorVisits (monthTally utcOffset newDate today visits)
  = Z.of_nat (length (countedTargets newDate today visits)).
Proof.
  unfold monthTally.
  destruct (tallyVisit_fold visits
              {| doctorVisits := 0; pharmacyVisits := 0; workingDays := ∅ |})
    as (-> & _ & _).
  cbn [doctorVisits]. unfold countedTargets. rewrite length_fmap.
  rewrite Z.add_0_l. do 2 f_equal.
  induction visits as [|v visits IH]; [reflexivity|].
  rewrite !filter_cons, countedThisMonth_inCurrentMonth.
  destruct (inCurrentMonth newDate today v).
  - rewrite decide_True by reflexivity. rewrite filter_cons.
    destruct (type v).
    + rewrite decide_True by reflexivity.
      rewrite decide_True by reflexivity. by rewrite IH.
    + rewrite decide_False by discriminate.
      rewrite decide_False by discriminate. exact IH.
  - rewrite decide_False by discriminate.
    rewrite decide_False by discriminate. exact IH.
Qed.

(** X20.  In [monthlyCounts] the two counters add up to the number of
    visits dated from the start of the month up to now, and the doctor
    counter is the number of visits that the frequency counts.  The rate
    per working day divides by a positive number of days that is at most
    the number of visits; the guard for zero days is taken exactly when no
    visit is counted. *)
Theorem monthly_counts_and_working_days (visits : list VisitReport) :
  let tally := monthTally utcOffset newDate today visits in
  let total :=
    Z.of_nat
      (length (filter (fun v => inCurrentMonth newDate today v = true) visits)) in
  doctorVisits tally + pharmacyVisits tally = total
  ∧ doctorVisits tally = Z.of_nat (length (countedTargets newDate today visits))
  ∧ match visitsPerWorkingDay tally with
    | Some (totalMonthlyVisits, numberOfWorkingDays) =>
        totalMonthlyVisits = total
        ∧ 1 <= numberOfWorkingDays <= totalMonthlyVisits
    | None => total = 0
    end.
Proof.
  intros tally total.
  pose proof (doctorVisits_countedTargets visits) as Hdoctors.
  fold tally in Hdoctors.
  subst tally total. unfold monthTally in *.
  destruct (tallyVisit_fold visits
              {| doctorVisits := 0; pharmacyVisits := 0; workingDays := ∅ |})
    as (Hd & Hp & Hw).
  cbn [doctorVisits pharmacyVisits workingDays] in Hd, Hp, Hw.
  rewrite (right_id_L ∅ (∪)) in Hw.
  pose proof (length_filter_by_type
                (filter (fun v => inCurrentMonth newDate today v = true) visits))
    as Hsum.
  split; [lia|]. split; [exact Hdoctors|].
  unfold visitsPerWorkingDay. cbv zeta. rewrite Hw, Hd, Hp.
  pose proof (size_list_to_set_le
                ((fun v => toYYYYMMDD utcOffset (default 0 (newDate (date v))))
                   <$> filter (fun v => inCurrentMonth newDate today v = true)
                         visits)) as Hsize.
  rewrite length_fmap in Hsize.
  destruct (filter (fun v => inCurrentMonth newDate today v = true) visits)
    as [|v rest] eqn:Hmonth.
  - rewrite fmap_nil, list_to_set_nil, size_empty. reflexivity.
  - rewrite fmap_cons, list_to_set_cons in Hsize |- *.
    assert (size ({[toYYYYMMDD utcOffset (default 0 (newDate (date v)))]}
                  ∪ list_to_set
                      ((fun v => toYYYYMMDD utcOffset
                                   (default 0 (newDate (date v)))) <$> rest)
                  : gset string) <> 0%nat) as Hne.
    { apply size_non_empty_iff. intros Hempty.
      apply empty_union in Hempty as [Hempty _].
      by apply non_empty_singleton in Hempty. }
    generalize dependent
      (size ({[toYYYYMMDD utcOffset (default 0 (newDate (date v)))]}
             ∪ list_to_set
                 ((fun v => toYYYYMMDD utcOffset
                              (default 0 (newDate (date v)))) <$> rest)
             : gset string)).
    intros days Hsize Hne.
    destruct (Z.ltb_spec 0 (Z.of_nat days)); [|lia].
    cbn [length] in *. lia.
Qed.

End MonthProperties.

(** ** The frequency against the monthly count *)

Lemma sum_over_ext (g h : string -> Z) (R : list string) :
  (forall n, n ∈ R -> g n = h n) ->
  foldr (fun n acc => g n + acc) 0 R = foldr (fun n acc => h n + acc) 0 R.
Proof.
  induction R as [|r R IH]; intros Hext; [reflexivity|].
  cbn [foldr]. rewrite IH, (Hext r).
  - reflexivity.
  - apply elem_of_cons. by left.
  - intros n Hn. apply Hext, elem_of_cons. by right.
Qed.

Lemma sum_over_bump (g : string -> Z) (a : string) (R : list string) :
  NoDup R ->
  foldr (fun n acc => (g n + if decide (a = n) then 1 else 0) + acc) 0 R
  = foldr (fun n acc => g n + acc) 0 R + if decide (a ∈ R) then 1 else 0.
Proof.
  induction 1 as [|r R Hr Hnodup IH].
  - cbn [foldr]. rewrite decide_False; [lia|]. apply not_elem_of_nil.
  - cbn [foldr]. rewrite IH.
    destruct (decide (a = r)) as [->|Hne].
    + rewrite (decide_False (P := r ∈ R)) by exact Hr.
      rewrite (decide_True (P := r ∈ r :: R)) by (apply elem_of_cons; by left).
      lia.
    + destruct (decide (a ∈ R)) as [Hin|Hout].
      * rewrite decide_True by (apply elem_of_cons; by right). lia.
      * rewrite decide_False; [lia|].
        intros [?|?]%elem_of_cons; contradiction.
Qed.

(** Summed over the distinct elements, the numbers of occurrences give the
    length of the list. *)
Lemma sum_count_occ (l : list string) :
  foldr (fun n acc => Z.of_nat (count_occ string_dec l n) + acc) 0
        (remove_dups l)
  = Z.of_nat (length l).
Proof.
  induction l as [|a l IH]; [reflexivity|].
  assert (foldr (fun n acc => Z.of_nat (count_occ string_dec (a :: l) n) + acc)
                0 (remove_dups l)
          = Z.of_nat (length l) + if decide (a ∈ remove_dups l) then 1 else 0)
    as Hsum.
  { rewrite <- IH, <- sum_over_bump by apply NoDup_remove_dups.
    apply sum_over_ext. intros n _.
    destruct (decide (a = n)) as [->|Hne].
    - rewrite count_occ_cons_eq by reflexivity. lia.
    - rewrite count_occ_cons_neq by exact Hne. lia. }
  cbn [remove_dups length].
  destruct (decide_rel elem_of a l) as [Hin|Hout].
  - rewrite Hsum, decide_True by (by apply elem_of_remove_dups). lia.
  - cbn [foldr]. rewrite Hsum.
    rewrite decide_False by (by rewrite elem_of_remove_dups).
    rewrite count_occ_cons_eq by reflexivity.
    assert (count_occ string_dec l a = 0%nat) as ->.
    { apply count_occ_not_In. by rewrite <- list_elem_of_In. }
    lia.
Qed.

(** Counting the elements of a list whose value is 1, is 2, and is at
    least 3. *)
Lemma bucket_lengths (tv : string -> Z) (R : list string) :
  (forall n, n ∈ R -> 1 <= tv n) ->
  Z.of_nat (length (filter (fun n => tv n = 1) R))
  + Z.of_nat (length (filter (fun n => tv n = 2) R))
  + Z.of_nat (length (filter (fun n => 3 <= tv n) R))
  = Z.of_nat (length R)
  ∧ Z.of_nat (length (filter (fun n => tv n = 1) R))
    + 2 * Z.of_nat (length (filter (fun n => tv n = 2) R))
    + 3 * Z.of_nat (length (filter (fun n => 3 <= tv n) R))
    <= foldr (fun n acc => tv n + acc) 0 R.
Proof.
  induction R as [|r R IH]; intros Hpos.
  - cbn. lia.
  - destruct IH as [IHcount IHweight].
    { intros n Hn. apply Hpos, elem_of_cons. by right. }
    assert (1 <= tv r) as Hr by (apply Hpos, elem_of_cons; by left).
    rewrite !filter_cons. cbn [foldr].
    repeat case_decide; cbn [length]; lia.
Qed.

Lemma sum_over_filter_le (g : string -> Z) (Q : string -> Prop)
    `{!forall n, Decision (Q n)} (R : list string) :
  (forall n, n ∈ R -> 0 <= g n) ->
  foldr (fun n acc => g n + acc) 0 (filter Q R)
  <= foldr (fun n acc => g n + acc) 0 R.
Proof.
  induction R as [|r R IH]; intros Hpos; [reflexivity|].
  assert (0 <= g r) by (apply Hpos, elem_of_cons; by left).
  assert (foldr (fun n acc => g n + acc) 0 (filter Q R)
          <= foldr (fun n acc => g n + acc) 0 R) as Hrest.
  { apply IH. intros n Hn. apply Hpos, elem_of_cons. by right. }
  rewrite filter_cons. destruct (decide (Q r)); cbn [foldr]; lia.
Qed.



(** ** Dates as text *)

Lemma utc_day_of_local_time (utcOffset d : Z) :
  - msPerDay < utcOffset < msPerDay ->
  (d - utcOffset) / msPerDay
  = localDay d
    + (if d mod msPerDay <? utcOffset then -1
       else if msPerDay <=? d mod msPerDay - utcOffset then 1 else 0).
Proof.
  unfold localDay, msPerDay. intros Hoffset.
  destruct (Z.ltb_spec (d mod 86400000) utcOffset);
    [|destruct (Z.leb_spec 86400000 (d mod 86400000 - utcOffset))];
    Z.div_mod_to_equations; lia.
Qed.

Lemma addDays_time_of_day (d n : Z) :
  addDays d n mod msPerDay = d mod msPerDay.
Proof. unfold addDays. apply Z_mod_plus_full. Qed.

(** X22.  The date strings of the manager dashboard name days in UTC.  On a
    host whose clock is ahead of UTC they name the day before the local
    one during the first hours of the local day, and on a host behind UTC
    the day after during the last hours.  The two ends of the current week
    are shifted alike, so they stay six days apart. *)
Theorem date_strings_name_utc_days (utcOffset now : Z) :
  - msPerDay < utcOffset < msPerDay ->
  let shift :=
    if now mod msPerDay <? utcOffset then -1
    else if msPerDay <=? now mod msPerDay - utcOffset then 1 else 0 in
  let saturday := localDay (getCurrentWeekDates now).1 in
  getTodayDateString utcOffset now = isoDay (localDay now + shift)
  ∧ getCurrentWeekDateStrings utcOffset now
    = (isoDay (saturday + shift), isoDay (saturday + 6 + shift)).
Proof.
  intros Hoffset shift saturday. subst shift saturday.
  unfold getTodayDateString, getCurrentWeekDateStrings, getCurrentWeekDates,
    toYYYYMMDD.
  cbv zeta. cbn [fst snd].
  rewrite !utc_day_of_local_time by exact Hoffset.
  rewrite !addDays_time_of_day, !localDay_addDays.
  split; reflexivity.
Qed.

(** At midnight on a clock three hours ahead of UTC, the strings name the
    day before. *)
Lemma date_strings_name_utc_days_witness :
  getTodayDateString 10800000 sampleToday = isoDay (localDay sampleToday + -1)
  ∧ getCurrentWeekDateStrings 10800000 sampleToday
    = (isoDay (localDay (getCurrentWeekDates sampleToday).1 + -1),
       isoDay (localDay (getCurrentWeekDates sampleToday).1 + 6 + -1)).
Proof.
  apply (date_strings_name_utc_days 10800000 sampleToday).
  unfold msPerDay. lia.
Defined.

(** ** The visit form *)

(** X23.  [handleSubmit] makes a call only for a complete form: a client is
    selected, the notes are not blank, and for a doctor at least one
    product and a visit type are chosen.  A complete form always leads to a
    call, for the kind of client of the form, with the notes as typed. *)
Theorem submit_calls_exactly_for_complete_forms
    (parseInt : string -> option Z) (trim : string -> string)
    (t : string -> list string -> string) (u : User) (st : VisitFormState) :
  (forall call,
     handleSubmit parseInt trim t u st = inr call ->
     targetId st <> ""
     ∧ trim (form_notes st) <> ""
     ∧ match visitTargetType st with
       | visit_doctor =>
           selectedProductIds st <> []
           ∧ exists kind,
               form_visitType st = Some kind
               ∧ call = addDoctorVisit (parseInt (targetId st)) (user_id u)
                          (selectedProductIds st) (parseInt (form_regionId st))
                          kind (form_notes st)
       | visit_pharmacy =>
           call = addPharmacyVisit (parseInt (targetId st)) (user_id u)
                    (parseInt (form_regionId st)) (form_notes st)
       end)
  ∧ (targetId st <> "" ->
     trim (form_notes st) <> "" ->
     (visitTargetType st = visit_doctor ->
      selectedProductIds st <> [] ∧ form_visitType st <> None) ->
     exists call, handleSubmit parseInt trim t u st = inr call).
Proof.
  unfold handleSubmit, submitErrors. cbv zeta.
  destruct st as [kindOfClient region target products visitKind notes].
  cbn [visitTargetType form_regionId targetId selectedProductIds
       form_visitType form_notes].
  split.
  - intros call.
    destruct (decide (target = "")) as [->|Htarget].
    { rewrite (bool_decide_eq_true_2 ("" = "")) by reflexivity.
      cbn [app length]. rewrite bool_decide_eq_true_2 by (cbn; lia).
      discriminate. }
    rewrite (bool_decide_eq_false_2 (target = "")) by exact Htarget.
    destruct (decide (trim notes = "")) as [Hblank|Hnotes].
    { rewrite (bool_decide_eq_true_2 (trim notes = "")) by exact Hblank.
      cbn [app length]. rewrite bool_decide_eq_true_2 by (cbn; lia).
      discriminate. }
    rewrite (bool_decide_eq_false_2 (trim notes = "")) by exact Hnotes.
    cbn [app].
    destruct kindOfClient.
    + destruct products as [|product products].
      { rewrite (bool_decide_eq_true_2 (length [] = 0%nat)) by reflexivity.
        cbn [app length]. rewrite bool_decide_eq_true_2 by (cbn; lia).
        discriminate. }
      rewrite (bool_decide_eq_false_2 (length (product :: products) = 0%nat))
        by discriminate.
      destruct visitKind as [kind|].
      * rewrite (bool_decide_eq_false_2 (Some kind = None)) by discriminate.
        cbn [app length]. rewrite bool_decide_eq_false_2 by (cbn; lia).
        intros [= <-]. repeat split; try done. by exists kind.
      * rewrite (bool_decide_eq_true_2 (None = None)) by reflexivity.
        cbn [app length]. rewrite bool_decide_eq_true_2 by (cbn; lia).
        discriminate.
    + cbn [length]. rewrite bool_decide_eq_false_2 by lia.
      intros Hcall. repeat split; try done.
      destruct visitKind; congruence.
  - intros Htarget Hnotes Hdoctor.
    rewrite (bool_decide_eq_false_2 (target = "")) by exact Htarget.
    rewrite (bool_decide_eq_false_2 (trim notes = "")) by exact Hnotes.
    cbn [app].
    destruct kindOfClient.
    + destruct (Hdoctor eq_refl) as [Hproducts Hkind].
      destruct products as [|product products]; [done|].
      destruct visitKind as [kind|]; [|done].
      rewrite (bool_decide_eq_false_2 (length (product :: products) = 0%nat))
        by discriminate.
      rewrite (bool_decide_eq_false_2 (Some kind = None)) by discriminate.
      cbn [app length]. rewrite bool_decide_eq_false_2 by lia.
      eauto.
    + cbn [length]. rewrite bool_decide_eq_false_2 by lia.
      destruct visitKind; eauto.
Qed.

(** ** The cache *)

Section CacheProperties.

Context {T : Type}.

Implicit Types (store : gmap string (@cacheService.CacheItem T)).

Lemma getCacheKey_inj (key other : string) :
  cacheService.getCacheKey key = cacheService.getCacheKey other -> key = other.
Proof.
  unfold cacheService.getCacheKey, cacheService.CACHE_PREFIX.
  intros Hkeys. repeat (injection Hkeys as Hkeys). exact Hkeys.
Qed.

Lemma getCacheKey_prefix (key : string) :
  String.prefix cacheService.CACHE_PREFIX (cacheService.getCacheKey key) = true.
Proof.
  unfold cacheService.getCacheKey, cacheService.CACHE_PREFIX.
  by destruct key.
Qed.

(** X24.  A value stored without a custom expiry is returned by [get] up to
    and including the instant 15 minutes later, and the store is left as it
    is.  After that instant [get] returns nothing and deletes the entry.
    Storing under one key does not change what [get] returns for another. *)
Theorem cached_value_lives_fifteen_minutes
    (now later : Z) (key : string) (value : T) store :
  let stored := cacheService.set now key value None store in
  (later <= now + 900000 ->
   cacheService.get later key stored = (stored, Some value))
  ∧ (now + 900000 < later ->
     cacheService.get later key stored = (cacheService.remove key store, None))
  ∧ (forall other,
       other <> key ->
       (cacheService.get later other stored).2
       = (cacheService.get later other store).2).
Proof.
  cbv zeta.
  unfold cacheService.get, cacheService.set, cacheService.remove,
    cacheService.isExpired, cacheService.CACHE_EXPIRY_TIME.
  cbv zeta. rewrite lookup_insert_eq. cbn [cacheService.expiry cacheService.data].
  split; [|split].
  - intros Hfresh.
    destruct (Z.ltb_spec (now + 15 * 60 * 1000) later); [lia|reflexivity].
  - intros Hexpired.
    destruct (Z.ltb_spec (now + 15 * 60 * 1000) later); [|lia].
    by rewrite delete_insert_eq.
  - intros other Hother.
    rewrite lookup_insert_ne
      by (intros Hkeys; apply Hother; symmetry; by apply getCacheKey_inj).
    destruct (store !! cacheService.getCacheKey other) as [item|];
      [|reflexivity].
    by destruct (cacheService.expiry item <? later).
Qed.

(** X25.  A custom expiry of 0 is replaced by the default of 15 minutes
    from now.  Any other custom expiry is an instant, not a duration: the
    value is returned exactly up to that instant, whatever the time of
    storing. *)
Theorem custom_expiry_is_an_instant
    (now later customExpiry : Z) (key : string) (value : T) store :
  cacheService.set now key value (Some 0) store
  = cacheService.set now key value None store
  ∧ (customExpiry <> 0 ->
     ((cacheService.get later key
         (cacheService.set now key value (Some customExpiry) store)).2
      = Some value
      <-> later <= customExpiry)).
Proof.
  split; [reflexivity|]. intros Hcustom.
  unfold cacheService.get, cacheService.set, cacheService.isExpired.
  cbv zeta. rewrite lookup_insert_eq. cbn [cacheService.expiry cacheService.data].
  destruct (Z.eqb_spec customExpiry 0) as [|_]; [contradiction|].
  destruct (Z.ltb_spec customExpiry later); cbn [snd]; split;
    (discriminate || lia || reflexivity).
Qed.

(** X26.  After [remove] of a key and after [clear], [get] returns nothing
    for the key, whatever the time.  [clear] leaves alone what is stored
    under names outside the prefix of the cache.  A [get] that returns
    nothing leaves no entry under the key, so the next one returns nothing
    either; and [has] answers and changes the store as [get] does. *)
Theorem cache_removal_and_misses (now later : Z) (key : string) store :
  (cacheService.get now key (cacheService.remove key store)).2 = None
  ∧ (cacheService.get now key (cacheService.clear store)).2 = None
  ∧ (forall name,
       String.prefix cacheService.CACHE_PREFIX name = false ->
       cacheService.clear store !! name = store !! name)
  ∧ ((cacheService.get now key store).2 = None ->
     (cacheService.get now key store).1 !! cacheService.getCacheKey key = None
     ∧ (cacheService.get later key (cacheService.get now key store).1).2 = None)
  ∧ cacheService.has now key store
    = ((cacheService.get now key store).1,
       bool_decide (is_Some (cacheService.get now key store).2)).
Proof.
  unfold cacheService.get, cacheService.has, cacheService.remove,
    cacheService.clear.
  cbv zeta. split; [|split; [|split; [|split]]].
  - by rewrite lookup_delete_eq.
  - rewrite map_lookup_filter_None_2; [reflexivity|].
    right. intros item _. cbn [fst]. rewrite getCacheKey_prefix. discriminate.
  - intros name Hname.
    destruct (store !! name) as [item|] eqn:Hlookup.
    + by apply map_lookup_filter_Some_2.
    + apply map_lookup_filter_None_2. by left.
  - destruct (store !! cacheService.getCacheKey key) as [item|] eqn:Hlookup.
    + destruct (cacheService.isExpired now item); [|discriminate].
      cbn [fst snd]. intros _. by rewrite lookup_delete_eq.
    + cbn [fst snd]. intros _. by rewrite Hlookup.
  - destruct (store !! cacheService.getCacheKey key) as [item|].
    + by destruct (cacheService.isExpired now item).
    + reflexivity.
Qed.

End CacheProperties.
